(** * videomerger: the transcoder command line, the web-layer stub and the
    upload filter

    A shallow embedding of
      - src/videomerger/video_processor_cli.py
          (check_ffmpeg, get_ffmpeg_version, merge_videos),
      - src/videomerger/core/video_processor.py
          (VideoProcessor.merge_videos),
      - src/videomerger/app.py (allowed_file),
    followed by the properties the specification states about them.

    Python code that touches the outside world is embedded in a state and
    exception monad over an explicit [World]: the files on disk, the two
    output streams and the record of the calls made to [subprocess.run].
    What an external process does is not the program's to decide; it is an
    arbitrary oracle [exec], a variable of the sections below, so every
    theorem holds for every behaviour of the transcoder. *)

From Stdlib Require Import ZArith Ascii String DecimalString.
From stdpp Require Import base option list gmap strings.

Local Open Scope Z_scope.
Local Open Scope nat_scope.

(** ** Python strings *)

(** The line feed character, and ['\n'], the one-character string of it. *)
Definition LF_char : ascii := ascii_of_nat 10.
Definition LF : string := String LF_char EmptyString.

(** [c in s] for a one-character needle. *)
Fixpoint str_in (c : ascii) (s : string) : bool :=
  match s with
  | EmptyString => false
  | String a s' => if Ascii.eqb a c then true else str_in c s'
  end.

(** [s.split(sep)] for a one-character separator: the pieces between the
    occurrences of [sep], empty pieces included. *)
Fixpoint split (sep : ascii) (s : string) : list string :=
  match s with
  | EmptyString => [EmptyString]
  | String a s' =>
      if Ascii.eqb a sep then EmptyString :: split sep s'
      else match split sep s' with
           | h :: t => String a h :: t
           | [] => [String a EmptyString]
           end
  end.

(** The cut of [s] at the last occurrence of [sep], if there is one. *)
Fixpoint rcut (sep : ascii) (s : string) : option (string * string) :=
  match s with
  | EmptyString => None
  | String a s' =>
      match rcut sep s' with
      | Some (l, r) => Some (String a l, r)
      | None => if Ascii.eqb a sep then Some (EmptyString, s') else None
      end
  end.

(** [s.rsplit(sep, 1)] for a one-character separator. *)
Definition rsplit1 (sep : ascii) (s : string) : list string :=
  match rcut sep s with
  | Some (l, r) => [l; r]
  | None => [s]
  end.

(** Strings are byte strings, the UTF-8 text of Python's [str]. The
    full stop is one byte that occurs in no longer sequence, so cutting at it
    is the same on bytes and on characters. [s.lower()] is not: it follows
    the Unicode case mappings, which this file does not define. The
    definitions that call it take it as the argument [lower], and what is
    proved of them holds for every such function. *)

(** [str(n)] for a natural number. *)
Definition str_of_nat (n : nat) : string :=
  NilEmpty.string_of_uint (Nat.to_uint n).

(** [''.join(l)]. *)
Fixpoint join (l : list string) : string :=
  match l with
  | [] => EmptyString
  | s :: l' => s +:+ join l'
  end.

(** ** Exceptions and results *)

(** The subclasses of Python's [Exception] that the code raises or that
    [subprocess.run] raises into it: no executable on the search path, the
    timeout, and anything else. They are what [except Exception] catches;
    signals delivered to the interpreter are no part of the model. [str]
    is the message. *)
Inductive Exception : Type :=
  | ValueError (msg : string)
  | FileNotFoundError (msg : string)
  | TimeoutExpired (msg : string)
  | IndexError (msg : string)
  | KeyError (msg : string)
  | OtherException (msg : string).

Definition str (e : Exception) : string :=
  match e with
  | ValueError m | FileNotFoundError m | TimeoutExpired m
  | IndexError m | KeyError m | OtherException m => m
  end.

(** How a Python call ends: with a value or with a raised exception. *)
Inductive Result (A : Type) : Type :=
  | Returned (a : A)
  | Raised (e : Exception).
Arguments Returned {A} a.
Arguments Raised {A} e.

#[global] Instance Result_ret : MRet Result := fun A a => Returned a.
#[global] Instance Result_bind : MBind Result := fun A B f r =>
  match r with
  | Returned a => f a
  | Raised e => Raised e
  end.

(** [l[i]] on a list. *)
Definition getitem {A} (l : list A) (i : nat) : Result A :=
  match l !! i with
  | Some a => Returned a
  | None => Raised (IndexError "list index out of range")
  end.

(** [d[k]] and [d.get(k, dflt)] on a dict with string keys. *)
Definition dict_getitem {V} (d : gmap string V) (k : string) : Result V :=
  match d !! k with
  | Some v => Returned v
  | None => Raised (KeyError k)
  end.

Definition dict_get {V} (d : gmap string V) (k : string) (dflt : V) : V :=
  default dflt (d !! k).

(** ** The world *)

(** The result object of [subprocess.run(..., capture_output=True,
    text=True)]. *)
Record CompletedProcess : Type := {
  returncode : Z;
  stdout : string;
  stderr : string
}.

(** One call of [subprocess.run]: the command, the timeout in seconds if one
    was given, and the files on disk when the call was made. *)
Record RunCall : Type := {
  argv : list string;
  timeout : option Z;
  seen : gmap string string
}.

(** Files are regular files named by their path string, each holding its
    text; on them [write] and [os.remove] of an existing path succeed, and
    so does [open(p, 'w')] of the fixed name [concat_list.txt] in the
    working directory. Where the caller chooses the path, [open] can
    refuse it: see [open_w_at]. [sys_stdout] and [sys_stderr] hold what was
    printed so far, [run_calls] the calls made to [subprocess.run], oldest
    first. *)
Record World : Type := {
  fs : gmap string string;
  sys_stdout : string;
  sys_stderr : string;
  run_calls : list RunCall
}.

Definition set_fs (f : gmap string string) (w : World) : World :=
  {| fs := f; sys_stdout := sys_stdout w; sys_stderr := sys_stderr w;
     run_calls := run_calls w |}.
Definition add_stdout (s : string) (w : World) : World :=
  {| fs := fs w; sys_stdout := sys_stdout w +:+ s; sys_stderr := sys_stderr w;
     run_calls := run_calls w |}.
Definition add_stderr (s : string) (w : World) : World :=
  {| fs := fs w; sys_stdout := sys_stdout w; sys_stderr := sys_stderr w +:+ s;
     run_calls := run_calls w |}.
Definition add_run_call (c : RunCall) (w : World) : World :=
  {| fs := fs w; sys_stdout := sys_stdout w; sys_stderr := sys_stderr w;
     run_calls := run_calls w ++ [c] |}.

(** What running an external command does: how [subprocess.run] ends and
    the files on disk afterwards. *)
Definition Exec : Type :=
  list string -> option Z -> gmap string string ->
  Result CompletedProcess * gmap string string.

(** ** The monad of Python statements

    A statement maps the world to its result and the world after it; the
    effects made before an exception is raised stay. *)
Definition M (A : Type) : Type := World -> Result A * World.

#[global] Instance M_ret : MRet M := fun A a w => (Returned a, w).
#[global] Instance M_bind : MBind M := fun A B f m w =>
  match m w with
  | (Returned a, w') => f a w'
  | (Raised e, w') => (Raised e, w')
  end.

Definition lift {A} (r : Result A) : M A := fun w => (r, w).

Definition raise {A} (e : Exception) : M A := fun w => (Raised e, w).

(** [try: body except Exception as e: handler(e)]. *)
Definition try_except {A} (body : M A) (handler : Exception -> M A) : M A :=
  fun w =>
    match body w with
    | (Returned a, w') => (Returned a, w')
    | (Raised e, w') => handler e w'
    end.

(** [for x in l: body(x)], where the body may leave the enclosing function
    with [return v] (the body gives [Some v]) or fall through ([None]). *)
Fixpoint for_in {A R} (l : list A) (body : A -> M (option R)) : M (option R) :=
  match l with
  | [] => mret None
  | x :: l' =>
      r ← body x;
      match r with
      | Some v => mret (Some v)
      | None => for_in l' body
      end
  end.

(** [for x in l: body(x)] with a body that does not return. *)
Fixpoint for_each {A} (l : list A) (body : A -> M unit) : M unit :=
  match l with
  | [] => mret tt
  | x :: l' => body x;; for_each l' body
  end.

(** [print(s)] and [print(s, file=sys.stderr)]. *)
Definition print (s : string) : M unit :=
  fun w => (Returned tt, add_stdout (s +:+ LF) w).
Definition print_stderr (s : string) : M unit :=
  fun w => (Returned tt, add_stderr (s +:+ LF) w).

(** [os.path.exists(p)] and [os.remove(p)]. *)
Definition os_path_exists (p : string) : M bool :=
  fun w => (Returned (bool_decide (is_Some (fs w !! p))), w).
Definition os_remove (p : string) : M unit :=
  fun w => (Returned tt, set_fs (delete p (fs w)) w).

(** [open(p, 'w')] creates or empties the file; the handle is the path.
    [f.write(s)] appends to it. *)
Definition open_w (p : string) : M string :=
  fun w => (Returned p, set_fs (<[p := EmptyString]> (fs w)) w).
Definition file_write (f : string) (s : string) : M unit :=
  fun w =>
    (Returned tt,
     set_fs (<[f := default EmptyString (fs w !! f) +:+ s]> (fs w)) w).

(** [with open(p, 'w') as f: body(f)]. *)
Definition with_open_w {A} (p : string) (body : string -> M A) : M A :=
  f ← open_w p; body f.

(** ** More of Python: values, paths, falsity *)

(** The values that the dicts and the JSON bodies of the code hold; the
    only lists among them are lists of strings. *)
Inductive PyVal : Type :=
  | PStr (s : string)
  | PInt (n : Z)
  | PBool (b : bool)
  | PList (l : list string).

(** [not s] on a string, [not l] on a list, and [not x] on a value that may
    be [None]. *)
Definition not_str (s : string) : bool :=
  match s with
  | EmptyString => true
  | String _ _ => false
  end.

Definition not_items {A} (l : list A) : bool :=
  match l with
  | [] => true
  | _ :: _ => false
  end.

Definition not_opt {A} (falsy : A -> bool) (o : option A) : bool :=
  match o with
  | None => true
  | Some a => falsy a
  end.

(** Whether the file system refuses to open a path for writing, and with
    which error: a directory that is missing or may not be written, a
    directory in the place of the file. Like [Exec] it is the environment's
    to decide. *)
Definition Refusal : Type := gmap string string -> string -> option Exception.

(** The error of [open(p, 'w')], if there is one: the empty path is never a
    file, any other path is the file system's to refuse. *)
Definition open_error (refuses : Refusal) (files : gmap string string)
    (p : string) : option Exception :=
  if not_str p then
    Some (FileNotFoundError "[Errno 2] No such file or directory: ''")
  else refuses files p.

(** [open(p, 'w')] on a path that the caller chooses: it raises its error,
    or creates or empties the file as [open_w] does. *)
Definition open_w_at (refuses : Refusal) (p : string) : M string :=
  fun w =>
    match open_error refuses (fs w) p with
    | Some e => (Raised e, w)
    | None => open_w p w
    end.

(** [s.startswith(c)] and [s.endswith(c)] for a one-character [c]. *)
Definition startswith (c : ascii) (s : string) : bool :=
  match s with
  | EmptyString => false
  | String a _ => Ascii.eqb a c
  end.

Fixpoint endswith (c : ascii) (s : string) : bool :=
  match s with
  | EmptyString => false
  | String a EmptyString => Ascii.eqb a c
  | String _ s' => endswith c s'
  end.

(** [os.path.join(a, b)] of [posixpath]: an absolute [b] replaces [a], and
    a slash is put between them unless [a] is empty or ends with one. *)
Definition os_path_join (a b : string) : string :=
  if startswith "/" b then b
  else if not_str a || endswith "/" a then a +:+ b
  else a +:+ "/" +:+ b.

(** [l[-1]] on a list. *)
Definition getitem_last {A} (l : list A) : Result A :=
  match last l with
  | Some a => Returned a
  | None => Raised (IndexError "list index out of range")
  end.

(** [os.path.getsize(p)]: the number of bytes of the file. *)
Definition os_path_getsize (p : string) : M Z :=
  fun w =>
    match fs w !! p with
    | Some c => (Returned (Z.of_nat (String.length c)), w)
    | None =>
        (Raised (FileNotFoundError
                   ("[Errno 2] No such file or directory: '" +:+ p +:+ "'")),
         w)
    end.

(** Results can be compared. *)
#[global] Instance Exception_eq_dec : EqDecision Exception.
Proof. solve_decision. Defined.

#[global] Instance Result_eq_dec {A} `{EqDecision A} : EqDecision (Result A).
Proof. solve_decision. Defined.

(** [os.getenv(k, dflt)] in an environment. *)
Definition os_getenv (environ : gmap string string) (k dflt : string) : string :=
  default dflt (environ !! k).


(** ** src/videomerger/video_processor_cli.py *)

Module video_processor_cli.

(** The dict literal [quality_settings] of [merge_videos]. *)
Definition quality_settings : gmap string (list string) :=
  <["low" := ["-crf"; "28"]]>
  (<["medium" := ["-crf"; "23"]]>
  (<["high" := ["-crf"; "18"]]> ∅)).

Section with_exec.
Variable exec : Exec.

(** [subprocess.run(cmd, capture_output=True, text=True, timeout=t)]: the
    call is recorded, the process does to the files what it does, and the
    call returns the completed process or raises. *)
Definition subprocess_run (cmd : list string) (t : option Z)
  : M CompletedProcess :=
  fun w =>
    let '(r, fs') := exec cmd t (fs w) in
    (r, set_fs fs' (add_run_call
                      {| argv := cmd; timeout := t; seen := fs w |} w)).

Definition check_ffmpeg : M bool :=
  try_except
    (result ← subprocess_run ["ffmpeg"; "-version"] (Some 5%Z);
     if (returncode result =? 0)%Z then
       print "FFmpeg available";;
       mret true
     else
       print "FFmpeg not available";;
       mret false)
    (fun _ =>
       print "FFmpeg not available";;
       mret false).

Definition get_ffmpeg_version : M string :=
  try_except
    (result ← subprocess_run ["ffmpeg"; "-version"] (Some 5%Z);
     if (returncode result =? 0)%Z then
       version_line ← lift (getitem (split LF_char (stdout result)) 0);
       print version_line;;
       mret version_line
     else
       print "unknown";;
       mret "unknown")
    (fun _ =>
       print "unknown";;
       mret "unknown").

Definition merge_videos (input_paths : list string) (output_path : string)
    (quality : string) (overwrite : bool) : M bool :=
  if length input_paths <? 2 then
    print_stderr "Error: At least 2 videos required";;
    mret false
  else
    r ← for_in input_paths (fun path =>
          e ← os_path_exists path;
          if negb e then
            print_stderr ("Error: File not found: " +:+ path);;
            mret (Some false)
          else mret None);
    match r with
    | Some b => mret b
    | None =>
        let concat_file := "concat_list.txt" in
        try_except
          (with_open_w concat_file (fun f =>
             for_each input_paths (fun path =>
               file_write f ("file '" +:+ path +:+ "'" +:+ LF)));;
           let cmd :=
             ["ffmpeg";
              "-f"; "concat";
              "-safe"; "0";
              "-i"; concat_file;
              "-c:v"; "libx264";
              "-preset"; "medium"] in
           dflt ← lift (dict_getitem quality_settings "medium");
           let cmd := cmd ++ dict_get quality_settings quality dflt in
           let cmd := cmd ++ ["-c:a"; "aac"] in
           let cmd := if overwrite then cmd ++ ["-y"] else cmd in
           let cmd := cmd ++ [output_path] in
           result ← subprocess_run cmd None;
           e ← os_path_exists concat_file;
           (if e : bool then os_remove concat_file else mret tt);;
           if (returncode result =? 0)%Z then
             print ("Successfully merged videos to " +:+ output_path);;
             mret true
           else
             print_stderr ("Error merging videos: " +:+ stderr result);;
             mret false)
          (fun e =>
             ex ← os_path_exists concat_file;
             (if ex : bool then os_remove concat_file else mret tt);;
             print_stderr ("Error: " +:+ str e);;
             mret false)
    end.

(** The namespace that [parser.parse_args()] gives: a flag is a boolean,
    [--inputs] and [--output] are [None] when absent, [--quality] is one of
    its choices or the default. *)
Record Namespace : Type := {
  arg_check_ffmpeg : bool;
  arg_version : bool;
  arg_merge : bool;
  arg_inputs : option (list string);
  arg_output : option string;
  arg_quality : string;
  arg_overwrite : bool
}.

(** [main] from the point where [parser.parse_args()] has returned. The
    parser is argparse's: its help text [format_help] and the namespace
    [args] that it returned are arguments here. On a command line that it
    refuses, and on [--help], argparse ends the process itself, with status
    2 or 0, and nothing below runs; that is no part of this definition.
    Every branch ends in [sys.exit(n)]; the value of [main] is [n]. *)
Definition main (format_help : string) (args : Namespace) : M Z :=
  if arg_check_ffmpeg args then
    ok ← check_ffmpeg;
    mret (if ok : bool then 0%Z else 1%Z)
  else if arg_version args then
    get_ffmpeg_version;;
    mret 0%Z
  else if arg_merge args then
    if not_opt not_items (arg_inputs args)
       || not_opt not_str (arg_output args) then
      print_stderr "Error: --inputs and --output are required for merge";;
      mret 1%Z
    else
      success ← merge_videos (default [] (arg_inputs args))
                  (default EmptyString (arg_output args))
                  (arg_quality args) (arg_overwrite args);
      mret (if success : bool then 0%Z else 1%Z)
  else
    (fun w => (Returned tt, add_stdout format_help w));;
    mret 1%Z.

End with_exec.
End video_processor_cli.

(** ** src/videomerger/core/video_processor.py *)

Module video_processor.

Record VideoProcessor : Type := { supported_formats : list string }.

Definition __init__ : VideoProcessor :=
  {| supported_formats := ["mp4"; "avi"; "mov"; "mkv"; "webm"] |}.

(** [not l]: a list is false when it is empty. *)
Definition not_list {A} (l : list A) : bool :=
  match l with
  | [] => true
  | _ :: _ => false
  end.

(** [refuses] is the file system's answer to [open], [lower] is Python's
    [str.lower]. *)
Section with_environment.
Variable refuses : Refusal.
Variable lower : string -> string.

Definition merge_videos (self : VideoProcessor) (video_files : list string)
    (output_path : string) : M string :=
  if not_list video_files || (length video_files <? 2) then
    raise (ValueError "At least 2 video files are required for merging")
  else
    for_each video_files (fun video_file =>
      e ← os_path_exists video_file;
      if negb e then
        raise (FileNotFoundError ("Video file not found: " +:+ video_file))
      else mret tt);;
    (f ← open_w_at refuses output_path;
     file_write f ("# Placeholder merged video file" +:+ LF);;
     file_write f ("# Merged from " +:+ str_of_nat (length video_files)
                   +:+ " videos" +:+ LF));;
    mret output_path.

Definition validate_video (self : VideoProcessor) (video_path : string)
  : M bool :=
  e ← os_path_exists video_path;
  if negb e then mret false
  else
    piece ← lift (getitem_last (rsplit1 "." video_path));
    let extension := lower piece in
    mret (bool_decide (extension ∈ supported_formats self)).

End with_environment.

(** The dict is built key by key, left to right; the size is asked for
    only when the second existence test holds. *)
Definition get_video_info (self : VideoProcessor) (video_path : string)
  : M (gmap string PyVal) :=
  e ← os_path_exists video_path;
  e' ← os_path_exists video_path;
  size ← (if e' : bool then os_path_getsize video_path else mret 0%Z);
  mret (<["path" := PStr video_path]>
        (<["exists" := PBool e]>
        (<["size" := PInt size]> ∅))).

End video_processor.

(** ** src/videomerger/utils/config.py *)

Module config.

(** The configuration classes. *)
Inductive ConfigClass : Type :=
  | Config
  | DevelopmentConfig
  | ProductionConfig
  | TestingConfig.


(** The class attribute [DEBUG] as seen from each class, the base class
    reading it from the environment when the module is loaded. *)
Definition DEBUG (environ : gmap string string) (cls : ConfigClass) : bool :=
  match cls with
  | Config => bool_decide (os_getenv environ "DEBUG" "True" = "True")
  | DevelopmentConfig => true
  | ProductionConfig => false
  | TestingConfig => true
  end.

(** The module-level dict [config]. *)
Definition config : gmap string ConfigClass :=
  <["development" := DevelopmentConfig]>
  (<["production" := ProductionConfig]>
  (<["testing" := TestingConfig]>
  (<["default" := DevelopmentConfig]> ∅))).

Definition get_config (environ : gmap string string) (env : option string)
  : Result ConfigClass :=
  let env :=
    match env with
    | None => os_getenv environ "FLASK_ENV" "development"
    | Some env => env
    end in
  dflt ← dict_getitem config "default";
  mret (dict_get config env dflt).

End config.

(** ** src/videomerger/app.py *)

Module app.

(** The set is the [allowed_extensions] argument, [ALLOWED_EXTENSIONS] of
    the configuration at the only call. The conjunction is Python's [and]:
    its right side, the only part that can raise, runs only when the left
    side holds. [lower] is Python's [str.lower]. *)
Definition allowed_file (lower : string -> string) (filename : string)
    (allowed_extensions : gset string) : Result bool :=
  if str_in "." filename then
    ext ← getitem (rsplit1 "." filename) 1;
    mret (bool_decide (lower ext ∈ allowed_extensions))
  else mret false.


(** The JSON object of a merge request: [files], a list of strings, and
    [output_name], a string, each of them there or not. *)
Record MergeRequest : Type := {
  req_files : option (list string);
  req_output_name : option string
}.

(** What a view returns: a JSON object with a status, or a file sent as an
    attachment. *)
Inductive Body : Type :=
  | Json (o : gmap string PyVal)
  | Attachment (path content : string).

Record Response : Type := {
  body : Body;
  status_code : Z
}.


(** [send_file(p, as_attachment=True)]. Flask resolves the path against the
    root path of the application, so a relative path is looked up there and
    an absolute path as it is; a missing file is an error. *)
Definition send_file (root_path p : string) : M Response :=
  fun w =>
    let path := os_path_join root_path p in
    match fs w !! path with
    | Some c =>
        (Returned {| body := Attachment path c; status_code := 200 |}, w)
    | None =>
        (Raised (FileNotFoundError
                   ("[Errno 2] No such file or directory: '" +:+ path +:+ "'")),
         w)
    end.

(** The views that [create_app] defines, over the entries of [app.config]
    they read and the processor made by [VideoProcessor()]. What Flask hands
    to a view is an argument here: the list under [videos] of
    [request.files] ([None] when the key is absent), the JSON object of
    [request.get_json()] ([None] when it is null), the [filename] of the URL.
    [secure_filename] is werkzeug's and an argument as well, and so are the
    root path of the application, [str.lower] and the file system's answer
    to [open]. The JSON of a merge request is taken to be an object whose
    [files] is a list of strings and whose [output_name] is a string. *)
Section create_app.
Variable refuses : Refusal.
Variable lower : string -> string.
Variable root_path : string.
Variable UPLOAD_FOLDER OUTPUT_FOLDER : string.
Variable ALLOWED_EXTENSIONS : gset string.
Variable secure_filename : string -> string.

Definition video_processor : video_processor.VideoProcessor :=
  video_processor.__init__.


Definition merge_videos (data : option MergeRequest) : M Response :=
  match data with
  | Some {| req_files := Some video_files; req_output_name := output_name |} =>
      let output_filename := default "merged_video.mp4" output_name in
      try_except
        (output_path ← video_processor.merge_videos refuses video_processor
                         video_files
                         (os_path_join OUTPUT_FOLDER output_filename);
         mret {| body :=
                   Json (<["message" := PStr "Videos merged successfully"]>
                         (<["output_file" := PStr output_path]> ∅));
                 status_code := 200 |})
        (fun e : Exception =>
           mret {| body := Json (<["error" := PStr (str e)]> ∅);
                   status_code := 500 |})
  | _ =>
      mret {| body := Json (<["error" := PStr "No files specified"]> ∅);
              status_code := 400 |}
  end.

Definition download_video (filename : string) : M Response :=
  let filepath := os_path_join OUTPUT_FOLDER (secure_filename filename) in
  e ← os_path_exists filepath;
  if e : bool then send_file root_path filepath
  else
    mret {| body := Json (<["error" := PStr "File not found"]> ∅);
            status_code := 404 |}.

Definition health : M Response :=
  mret {| body := Json (<["status" := PStr "healthy"]> ∅);
          status_code := 200 |}.

End create_app.

End app.

(** ** Sample worlds and transcoders

    Concrete inputs on which the theorems below are instantiated. *)

(** A directory with two clips, nothing printed, no process run yet. *)
Definition two_clips : World :=
  {| fs := <["a.mp4" := "AAAA"]> (<["b.mp4" := "BBBB"]> ∅);
     sys_stdout := EmptyString;
     sys_stderr := EmptyString;
     run_calls := [] |}.

(** A transcoder that succeeds and touches no file. *)
Definition ffmpeg_ok : Exec := fun _ _ files =>
  (Returned {| returncode := 0;
               stdout := "ffmpeg version 6.0" +:+ LF +:+ "built with gcc";
               stderr := EmptyString |},
   files).

(** A transcoder that rejects its input. *)
Definition ffmpeg_invalid_codec : Exec := fun _ _ files =>
  (Returned {| returncode := 1;
               stdout := EmptyString;
               stderr := "invalid codec" |},
   files).

(** No transcoder on the search path. *)
Definition ffmpeg_missing : Exec := fun _ _ files =>
  (Raised (FileNotFoundError "[Errno 2] No such file or directory: 'ffmpeg'"),
   files).

Definition test_outputs : string := "/tmp/test_outputs".

(** A root path of the application. *)
Definition test_root : string := "/srv/videomerger".

(** A stand-in for [secure_filename] on names that are safe already. *)
Definition keep_name (name : string) : string := name.


(** An environment without variables. *)
Definition no_environ : gmap string string := ∅.


(** The same with [--check-ffmpeg] before it. *)
Definition check_and_merge_args : video_processor_cli.Namespace :=
  {| video_processor_cli.arg_check_ffmpeg := true;
     video_processor_cli.arg_version := false;
     video_processor_cli.arg_merge := true;
     video_processor_cli.arg_inputs := Some ["a.mp4"; "b.mp4"];
     video_processor_cli.arg_output := Some "out.mp4";
     video_processor_cli.arg_quality := "medium";
     video_processor_cli.arg_overwrite := false |}.

(** [--version]. *)
Definition version_args : video_processor_cli.Namespace :=
  {| video_processor_cli.arg_check_ffmpeg := false;
     video_processor_cli.arg_version := true;
     video_processor_cli.arg_merge := false;
     video_processor_cli.arg_inputs := None;
     video_processor_cli.arg_output := None;
     video_processor_cli.arg_quality := "medium";
     video_processor_cli.arg_overwrite := false |}.


(** A lowercasing of byte strings that is [str.lower] on ASCII text: the
    letters A-Z go to a-z and every other byte is kept. The theorems are
    instantiated with it on ASCII names only. *)
Definition lower_ascii (a : ascii) : ascii :=
  let n := nat_of_ascii a in
  if (65 <=? n) && (n <=? 90) then ascii_of_nat (n + 32) else a.

Fixpoint ascii_lower (s : string) : string :=
  match s with
  | EmptyString => EmptyString
  | String a s' => String (lower_ascii a) (ascii_lower s')
  end.

(** A file system that lets every path but the empty one be opened. *)
Definition any_path : Refusal := fun _ _ => None.

(** A working directory without subdirectories: a path with a slash is
    refused. *)
Definition no_subdirectory : Refusal := fun _ p =>
  if str_in "/" p then
    Some (FileNotFoundError
            ("[Errno 2] No such file or directory: '" +:+ p +:+ "'"))
  else None.



(** The two clips and a file whose whole name is [MOV]. *)
Definition clips_and_bare_name : World :=
  {| fs := <["MOV" := "MMMM"]> (fs two_clips);
     sys_stdout := EmptyString;
     sys_stderr := EmptyString;
     run_calls := [] |}.

(** * Properties *)

(** ** Strings *)

Lemma append_cons (a : ascii) (s1 s2 : string) :
  String a s1 +:+ s2 = String a (s1 +:+ s2).
Proof. reflexivity. Qed.

Lemma append_nil_l (s : string) : EmptyString +:+ s = s.
Proof. reflexivity. Qed.

Lemma append_nil_r (s : string) : s +:+ EmptyString = s.
Proof.
  induction s as [|a s IH]; [reflexivity|]. by rewrite append_cons, IH.
Qed.

Lemma append_assoc (s1 s2 s3 : string) :
  (s1 +:+ s2) +:+ s3 = s1 +:+ s2 +:+ s3.
Proof.
  induction s1 as [|a s1 IH]; [reflexivity|]. by rewrite !append_cons, IH.
Qed.

Lemma str_in_app (c : ascii) (s1 s2 : string) :
  str_in c (s1 +:+ s2) = str_in c s1 || str_in c s2.
Proof.
  induction s1 as [|a s1 IH]; [reflexivity|].
  rewrite append_cons. cbn. by destruct (Ascii.eqb a c).
Qed.

(** [str_in] is Python's [in]: the character occurs somewhere. *)
Lemma str_in_true (c : ascii) (s : string) :
  str_in c s = true <-> exists l r, s = l +:+ String c r.
Proof.
  split.
  - induction s as [|a s IH]; [discriminate|]. cbn.
    destruct (Ascii.eqb_spec a c) as [->|Hne].
    + intros _. by exists EmptyString, s.
    + intros [l [r ->]]%IH. by exists (String a l), r.
  - intros (l & r & ->). rewrite str_in_app. cbn.
    rewrite Ascii.eqb_refl. apply orb_true_r.
Qed.

Lemma split_not_nil (sep : ascii) (s : string) : split sep s <> [].
Proof.
  induction s as [|a s IH]; cbn; [done|].
  destruct (Ascii.eqb a sep); [done|]. by destruct (split sep s).
Qed.

(** The first piece of [split] is the text before the first separator. *)
Lemma split_head (sep : ascii) (s : string) :
  exists h t, split sep s = h :: t /\ str_in sep h = false /\
    (s = h /\ t = [] \/ exists rest, s = h +:+ String sep rest /\ t = split sep rest).
Proof.
  induction s as [|a s IH]; cbn.
  - exists EmptyString, []. auto.
  - destruct (Ascii.eqb_spec a sep) as [->|Hne].
    + exists EmptyString, (split sep s). split; [done|]. split; [done|].
      right. by exists s.
    + destruct IH as (h & t & -> & Hh & Hs).
      exists (String a h), t. split; [done|]. split.
      * cbn. by rewrite (proj2 (Ascii.eqb_neq a sep) Hne).
      * destruct Hs as [[-> ->]|(rest & -> & ->)]; [by left|].
        right. by exists rest.
Qed.


Lemma rcut_None (sep : ascii) (s : string) :
  rcut sep s = None <-> str_in sep s = false.
Proof.
  induction s as [|a s IH]; cbn; [done|].
  destruct (rcut sep s) as [[l r]|].
  - destruct (Ascii.eqb a sep); [done|].
    split; [done|]. intros H. by apply IH in H.
  - destruct (Ascii.eqb a sep); [done|]. split; [|done]. intros _. by apply IH.
Qed.

(** [rcut] cuts at the last separator: nothing after it holds another. *)
Lemma rcut_Some (sep : ascii) (s l r : string) :
  rcut sep s = Some (l, r) <-> s = l +:+ String sep r /\ str_in sep r = false.
Proof.
  revert l. induction s as [|a s IH]; intros l; cbn.
  - split; [done|]. intros [H _]. by destruct l.
  - destruct (rcut sep s) as [[l' r']|] eqn:E.
    + split.
      * intros [= <- <-]. destruct (proj1 (IH l') eq_refl) as [-> Hr]. done.
      * intros [H Hr]. destruct l as [|b l].
        -- cbn in H. injection H as -> ->.
           apply rcut_None in Hr. congruence.
        -- rewrite append_cons in H. injection H as -> Hs.
           assert (Some (l', r') = Some (l, r)) as [= -> ->]; [|done].
           apply IH. done.
    + apply rcut_None in E as E'.
      destruct (Ascii.eqb_spec a sep) as [->|Hne].
      * split.
        -- intros [= <- <-]. done.
        -- intros [H Hr]. destruct l as [|b l].
           ++ cbn in H. by injection H as ->.
           ++ rewrite append_cons in H. injection H as -> Hs.
              rewrite Hs, str_in_app in E'. cbn in E'.
              rewrite Ascii.eqb_refl, orb_true_r in E'. done.
      * split; [done|]. intros [H Hr]. destruct l as [|b l].
        -- cbn in H. by injection H as -> ->.
        -- rewrite append_cons in H. injection H as -> Hs.
           rewrite Hs, str_in_app in E'. cbn in E'.
           rewrite Ascii.eqb_refl, orb_true_r in E'. done.
Qed.

(** ** Statements *)

Lemma bind_eq {A B} (m : M A) (f : A -> M B) (w : World) :
  (m ≫= f) w =
  match m w with
  | (Returned a, w') => f a w'
  | (Raised e, w') => (Raised e, w')
  end.
Proof. reflexivity. Qed.

(** A loop whose body falls through at every element falls through. *)
Lemma for_in_fallthrough {A R} (body : A -> M (option R)) (l : list A)
    (w : World) :
  Forall (fun x => body x w = (Returned None, w)) l ->
  for_in l body w = (Returned None, w).
Proof.
  induction 1 as [|x l Hx _ IH]; [reflexivity|].
  cbn [for_in]. by rewrite bind_eq, Hx.
Qed.

(** A loop returns at the first element whose body returns. *)
Lemma for_in_return {A R} (body : A -> M (option R)) (l1 l2 : list A)
    (x : A) (v : R) (w w' : World) :
  Forall (fun y => body y w = (Returned None, w)) l1 ->
  body x w = (Returned (Some v), w') ->
  for_in (l1 ++ x :: l2) body w = (Returned (Some v), w').
Proof.
  intros Hl1 Hx. induction Hl1 as [|y l1 Hy _ IH]; cbn [for_in app].
  - by rewrite bind_eq, Hx.
  - by rewrite bind_eq, Hy.
Qed.

Lemma for_each_ok {A} (body : A -> M unit) (l : list A) (w : World) :
  Forall (fun x => body x w = (Returned tt, w)) l ->
  for_each l body w = (Returned tt, w).
Proof.
  induction 1 as [|x l Hx _ IH]; [reflexivity|].
  cbn [for_each]. by rewrite bind_eq, Hx.
Qed.

(** A write appends to what the file holds. *)
Lemma file_write_open (f s c : string) (m : gmap string string) (w : World) :
  file_write f s (set_fs (<[f := c]> m) w)
  = (Returned tt, set_fs (<[f := c +:+ s]> m) w).
Proof.
  unfold file_write. cbn [fs set_fs].
  by rewrite lookup_insert_eq, insert_insert_eq.
Qed.

(** Writing one text per element to an open file appends them in order. *)
Lemma for_each_file_write (f : string) (g : string -> string)
    (l : list string) (c : string) (m : gmap string string) (w : World) :
  for_each l (fun x => file_write f (g x)) (set_fs (<[f := c]> m) w)
  = (Returned tt, set_fs (<[f := c +:+ join (map g l)]> m) w).
Proof.
  revert c. induction l as [|x l IH]; intros c; cbn [for_each map join].
  - by rewrite append_nil_r.
  - by rewrite bind_eq, file_write_open, IH, append_assoc.
Qed.

Lemma os_path_exists_true (p : string) (w : World) :
  is_Some (fs w !! p) -> os_path_exists p w = (Returned true, w).
Proof. intros H. unfold os_path_exists. by rewrite bool_decide_eq_true_2. Qed.

Lemma os_path_exists_false (p : string) (w : World) :
  fs w !! p = None -> os_path_exists p w = (Returned false, w).
Proof.
  intros H. unfold os_path_exists. rewrite bool_decide_eq_false_2; [done|].
  rewrite H. by intros [? ?].
Qed.

(** Removing the file when it is there leaves no file in either case. *)
Lemma remove_if_exists {B} (p : string) (k : unit -> M B) (w : World) :
  (os_path_exists p ≫= fun e : bool =>
     (if e then os_remove p else mret tt) ≫= k) w
  = k tt (set_fs (delete p (fs w)) w).
Proof.
  rewrite bind_eq. destruct (fs w !! p) as [c|] eqn:E.
  - by rewrite os_path_exists_true.
  - rewrite os_path_exists_false by done. rewrite bind_eq. cbn.
    rewrite delete_id by done. by destruct w.
Qed.

(** [with open(p, 'w')] around a loop of writes leaves the texts, in the
    order of the list, as the whole content of the file. *)
Lemma with_open_w_writes (p : string) (g : string -> string)
    (l : list string) (w : World) :
  with_open_w p (fun f => for_each l (fun x => file_write f (g x))) w
  = (Returned tt, set_fs (<[p := join (map g l)]> (fs w)) w).
Proof.
  unfold with_open_w. rewrite bind_eq. unfold open_w.
  by rewrite for_each_file_write, append_nil_l.
Qed.

Lemma quality_settings_medium :
  dict_getitem video_processor_cli.quality_settings "medium"
  = Returned ["-crf"; "23"].
Proof. reflexivity. Qed.

(** ** merge_videos of the command line *)

Section merge.
Import video_processor_cli.
Variable exec : Exec.

(** Validation passes: the loop over the inputs falls through. *)
Lemma validation_passes (input_paths : list string) (w : World) :
  Forall (fun p => is_Some (fs w !! p)) input_paths ->
  for_in input_paths (fun path =>
    e ← os_path_exists path;
    if negb e then
      print_stderr ("Error: File not found: " +:+ path);;
      mret (Some false)
    else mret None) w
  = (Returned None, w).
Proof.
  intros H. apply for_in_fallthrough.
  eapply Forall_impl; [exact H|]. intros p Hp. cbn beta.
  by rewrite bind_eq, os_path_exists_true.
Qed.

(** The three ways a run of the transcoder ends: exit status 0, another
    exit status, an exception. *)
Ltac case_exec :=
  match goal with
  | |- context [exec ?c ?t ?f] =>
      let result := fresh "result" in
      let e := fresh "e" in
      let fs2 := fresh "fs2" in
      destruct (exec c t f) as [[result|e] fs2];
      [destruct (returncode result =? 0)%Z|]
  end.

(** What a call that passes validation does, for each way the transcoder
    can end. *)
Lemma merge_videos_valid (input_paths : list string) (output_path : string)
    (quality : string) (overwrite : bool) (w : World) :
  2 <= length input_paths ->
  Forall (fun p => is_Some (fs w !! p)) input_paths ->
  let manifest :=
    join (map (fun p => "file '" +:+ p +:+ "'" +:+ LF) input_paths) in
  let fs1 := <["concat_list.txt" := manifest]> (fs w) in
  let cmd :=
    ["ffmpeg"; "-f"; "concat"; "-safe"; "0"; "-i"; "concat_list.txt";
     "-c:v"; "libx264"; "-preset"; "medium"]
    ++ dict_get quality_settings quality ["-crf"; "23"]
    ++ ["-c:a"; "aac"] ++ (if overwrite then ["-y"] else [])
    ++ [output_path] in
  let call := {| argv := cmd; timeout := None; seen := fs1 |} in
  let w1 := add_run_call call w in
  merge_videos exec input_paths output_path quality overwrite w =
  match exec cmd None fs1 with
  | (Returned result, fs2) =>
      let w2 := set_fs (delete "concat_list.txt" fs2) w1 in
      if (returncode result =? 0)%Z then
        (Returned true,
         add_stdout (("Successfully merged videos to " +:+ output_path)
                     +:+ LF) w2)
      else
        (Returned false,
         add_stderr (("Error merging videos: " +:+ stderr result) +:+ LF) w2)
  | (Raised e, fs2) =>
      (Returned false,
       add_stderr (("Error: " +:+ str e) +:+ LF)
         (set_fs (delete "concat_list.txt" fs2) w1))
  end.
Proof.
  intros Hlen Hex manifest fs1 cmd call w1. unfold merge_videos.
  rewrite (proj2 (Nat.ltb_ge _ _) Hlen).
  rewrite bind_eq, validation_passes by done.
  unfold try_except.
  rewrite bind_eq, with_open_w_writes.
  rewrite bind_eq, quality_settings_medium. unfold lift.
  match goal with
  | |- context [subprocess_run exec ?c None] =>
      replace c with cmd
        by (subst cmd; destruct overwrite; by rewrite <- ?app_assoc)
  end.
  rewrite bind_eq. unfold subprocess_run at 1. cbn [fs set_fs].
  fold manifest. fold fs1. fold call. fold w1.
  destruct (exec cmd None fs1) as [[result|e] fs2];
    rewrite remove_if_exists; [destruct (returncode result =? 0)%Z|];
    reflexivity.
Qed.

Lemma quality_args_cases (quality : string) :
  let args := dict_get quality_settings quality ["-crf"; "23"] in
  (quality = "low" -> args = ["-crf"; "28"]) /\
  (quality = "medium" -> args = ["-crf"; "23"]) /\
  (quality = "high" -> args = ["-crf"; "18"]) /\
  (quality <> "low" -> quality <> "medium" -> quality <> "high" ->
   args = ["-crf"; "23"]).
Proof.
  cbv zeta. repeat split; try (intros ->; reflexivity).
  intros Hl Hm Hh. unfold dict_get, quality_settings.
  by rewrite !lookup_insert_ne, lookup_empty.
Qed.



(** C2. A call of [merge_videos] that passes validation returns (it raises
    nothing), and when it has returned there is no manifest on disk: so it
    is when the transcoder exits with status 0, when it exits with another
    status, and when running it raises an exception; the transcoder [exec]
    is arbitrary. *)
Theorem merge_videos_manifest_removed (input_paths : list string)
    (output_path quality : string) (overwrite : bool) (w : World) :
  2 <= length input_paths ->
  Forall (fun p => is_Some (fs w !! p)) input_paths ->
  exists b w',
    merge_videos exec input_paths output_path quality overwrite w
      = (Returned b, w') /\
    fs w' !! "concat_list.txt" = None.
Proof.
  intros Hlen Hex. rewrite merge_videos_valid by done. cbv zeta.
  case_exec; eexists _, _; (split; [reflexivity|]); apply lookup_delete_eq.
Qed.


(** C4. In a call of [merge_videos] that passes validation the command
    line of the transcoder carries, after the fixed codec and preset
    options, the options of the quality tier: [-crf 28] for [low],
    [-crf 23] for [medium], [-crf 18] for [high], and [-crf 23], those of
    [medium], for every other tier, for which the whole call does what it
    does for [medium]. *)
Theorem merge_videos_quality_args (input_paths : list string)
    (output_path quality : string) (overwrite : bool) (w : World) :
  2 <= length input_paths ->
  Forall (fun p => is_Some (fs w !! p)) input_paths ->
  exists call args,
    run_calls (merge_videos exec input_paths output_path quality overwrite w).2
      = run_calls w ++ [call] /\
    argv call =
      ["ffmpeg"; "-f"; "concat"; "-safe"; "0"; "-i"; "concat_list.txt";
       "-c:v"; "libx264"; "-preset"; "medium"]
      ++ args ++ ["-c:a"; "aac"] ++ (if overwrite then ["-y"] else [])
      ++ [output_path] /\
    (quality = "low" -> args = ["-crf"; "28"]) /\
    (quality = "medium" -> args = ["-crf"; "23"]) /\
    (quality = "high" -> args = ["-crf"; "18"]) /\
    (quality <> "low" -> quality <> "medium" -> quality <> "high" ->
     args = ["-crf"; "23"] /\
     merge_videos exec input_paths output_path quality overwrite w
     = merge_videos exec input_paths output_path "medium" overwrite w).
Proof.
  intros Hlen Hex.
  destruct (quality_args_cases quality) as (Hl & Hm & Hh & Ho).
  rewrite !merge_videos_valid by done. cbv zeta.
  eexists _, (dict_get quality_settings quality ["-crf"; "23"]).
  split; [|split].
  - case_exec; reflexivity.
  - reflexivity.
  - repeat split; auto. by rewrite Ho.
Qed.

(** A list with a missing path splits at its first missing path. *)
Lemma first_missing (files : gmap string string) (paths : list string) :
  Exists (fun p => files !! p = None) paths ->
  exists before p after,
    paths = before ++ p :: after /\
    Forall (fun q => is_Some (files !! q)) before /\
    files !! p = None.
Proof.
  induction 1 as [p l Hp|q l _ IH].
  - by exists [], p, l.
  - destruct (files !! q) as [c|] eqn:E.
    + destruct IH as (before & p & after & -> & Hb & Hp).
      exists (q :: before), p, after. repeat split; [|done].
      constructor; [by rewrite E|done].
    + by exists [], q, l.
Qed.

(** What a call with fewer than two inputs does. *)
Lemma merge_videos_short (input_paths : list string)
    (output_path quality : string) (overwrite : bool) (w : World) :
  length input_paths < 2 ->
  merge_videos exec input_paths output_path quality overwrite w
  = (Returned false,
     add_stderr ("Error: At least 2 videos required" +:+ LF) w).
Proof.
  intros Hlen. unfold merge_videos.
  by rewrite (proj2 (Nat.ltb_lt _ _) Hlen).
Qed.

(** What a call does whose first missing input is [p]. *)
Lemma merge_videos_missing (before after : list string) (p : string)
    (output_path quality : string) (overwrite : bool) (w : World) :
  2 <= length (before ++ p :: after) ->
  Forall (fun q => is_Some (fs w !! q)) before ->
  fs w !! p = None ->
  merge_videos exec (before ++ p :: after) output_path quality overwrite w
  = (Returned false,
     add_stderr (("Error: File not found: " +:+ p) +:+ LF) w).
Proof.
  intros Hlen Hb Hp.
  unfold merge_videos. rewrite (proj2 (Nat.ltb_ge _ _) Hlen).
  rewrite bind_eq.
  rewrite (for_in_return _ before after p false w
             (add_stderr (("Error: File not found: " +:+ p) +:+ LF) w)).
  - reflexivity.
  - eapply Forall_impl; [exact Hb|]. intros q Hq. cbn beta.
    by rewrite bind_eq, os_path_exists_true.
  - by rewrite bind_eq, os_path_exists_false.
Qed.

(** [merge_videos] raises nothing: every failure is a returned [False]. *)
Lemma merge_videos_returns (input_paths : list string)
    (output_path quality : string) (overwrite : bool) (w : World) :
  exists b w',
    merge_videos exec input_paths output_path quality overwrite w
    = (Returned b, w').
Proof.
  destruct (decide (length input_paths < 2)) as [Hlen|Hlen].
  { rewrite merge_videos_short by done. by eexists _, _. }
  destruct (decide (Forall (fun p => is_Some (fs w !! p)) input_paths))
    as [Hex|Hex].
  - rewrite merge_videos_valid by (done || lia). cbv zeta.
    case_exec; by eexists _, _.
  - apply not_Forall_Exists in Hex; [|apply _].
    destruct (first_missing (fs w) input_paths) as (b & p & a & -> & Hb & Hp).
    { eapply Exists_impl; [exact Hex|]. intros q Hq. unfold compose in Hq.
      destruct (fs w !! q); [|done]. by destruct Hq. }
    rewrite merge_videos_missing by (done || lia). by eexists _, _.
Qed.

(** C5. With fewer than two input paths, the empty list included,
    [merge_videos] returns [False] after printing
    [Error: At least 2 videos required] to the error stream; no file is
    written or removed, so no manifest is made, and no process is run. *)
Theorem merge_videos_insufficient_inputs (input_paths : list string)
    (output_path quality : string) (overwrite : bool) (w : World) :
  length input_paths < 2 ->
  let run := merge_videos exec input_paths output_path quality overwrite w in
  run.1 = Returned false /\
  sys_stderr run.2
    = sys_stderr w +:+ "Error: At least 2 videos required" +:+ LF /\
  sys_stdout run.2 = sys_stdout w /\
  fs run.2 = fs w /\
  run_calls run.2 = run_calls w.
Proof.
  intros Hlen run. subst run. by rewrite merge_videos_short.
Qed.

(** C6. With at least two input paths of which some do not exist,
    [merge_videos] returns [False] after printing [Error: File not found: ]
    followed by the first path of the list that does not exist, every path
    before it existing, and nothing more; no file is written or removed,
    so no manifest is made, and no process is run. *)
Theorem merge_videos_first_missing_file (input_paths : list string)
    (output_path quality : string) (overwrite : bool) (w : World) :
  2 <= length input_paths ->
  Exists (fun p => fs w !! p = None) input_paths ->
  let run := merge_videos exec input_paths output_path quality overwrite w in
  exists before p after,
    input_paths = before ++ p :: after /\
    Forall (fun q => is_Some (fs w !! q)) before /\
    fs w !! p = None /\
    run.1 = Returned false /\
    sys_stderr run.2
      = sys_stderr w +:+ ("Error: File not found: " +:+ p) +:+ LF /\
    sys_stdout run.2 = sys_stdout w /\
    fs run.2 = fs w /\
    run_calls run.2 = run_calls w.
Proof.
  intros Hlen Hmiss run. subst run.
  destruct (first_missing _ _ Hmiss) as (before & p & after & E & Hb & Hp).
  exists before, p, after. split; [done|]. split; [done|]. split; [done|].
  subst input_paths. by rewrite merge_videos_missing.
Qed.

End merge.

(** ** The availability probe *)

Section probe.
Import video_processor_cli.
Variable exec : Exec.

(** C7. [check_ffmpeg] returns a boolean and raises nothing, whatever the
    probe does: it returns [True] exactly when running
    [ffmpeg -version] completes with exit status 0, and [False] when the
    process exits with another status or running it raises (no executable,
    timeout, anything else). *)
Theorem check_ffmpeg_total (w : World) :
  exists b w',
    check_ffmpeg exec w = (Returned b, w') /\
    (b = true <->
     exists result fs',
       exec ["ffmpeg"; "-version"] (Some 5%Z) (fs w) = (Returned result, fs')
       /\ returncode result = 0%Z).
Proof.
  unfold check_ffmpeg, try_except. rewrite bind_eq.
  unfold subprocess_run at 1.
  destruct (exec _ _ _) as [[result|e] fs'] eqn:E.
  - destruct (Z.eqb_spec (returncode result) 0) as [Hrc|Hrc].
    + eexists _, _. split; [reflexivity|]. split; [|done].
      intros _. by exists result, fs'.
    + eexists _, _. split; [reflexivity|]. split; [done|].
      intros (r & f & [= <- <-] & Hr). done.
  - eexists _, _. split; [reflexivity|]. split; [done|].
    intros (r & f & [=] & _).
Qed.

(** C8. [get_ffmpeg_version] returns a string and raises nothing. When
    running [ffmpeg -version] completes with exit status 0 the string is the
    first line of the captured standard output: the text before its first
    line feed, or all of it when it holds none. In every other case
    (another exit status, or an exception: no executable, timeout, anything
    else) it is the string [unknown]. *)
Theorem get_ffmpeg_version_first_line (w : World) :
  exists v w',
    get_ffmpeg_version exec w = (Returned v, w') /\
    (forall result fs',
       exec ["ffmpeg"; "-version"] (Some 5%Z) (fs w) = (Returned result, fs') ->
       returncode result = 0%Z ->
       str_in LF_char v = false /\
       (stdout result = v \/ exists rest, stdout result = v +:+ LF +:+ rest)) /\
    (~ (exists result fs',
          exec ["ffmpeg"; "-version"] (Some 5%Z) (fs w) = (Returned result, fs')
          /\ returncode result = 0%Z) ->
     v = "unknown").
Proof.
  unfold get_ffmpeg_version, try_except. rewrite bind_eq.
  unfold subprocess_run at 1.
  destruct (exec _ _ _) as [[result|e] fs'] eqn:E.
  - destruct (Z.eqb_spec (returncode result) 0) as [Hrc|Hrc].
    + destruct (split_head LF_char (stdout result)) as (h & t & Hs & Hh & Hd).
      rewrite bind_eq. unfold lift, getitem. rewrite Hs. cbn.
      eexists _, _. split; [reflexivity|]. split.
      * intros r f [= <- <-] _. split; [done|].
        destruct Hd as [[-> _]|(rest & -> & _)]; [by left|].
        right. by exists rest.
      * intros []. by exists result, fs'.
    + eexists _, _. split; [reflexivity|]. split; [|done].
      intros r f [= <- <-] Hr. done.
  - eexists _, _. split; [reflexivity|]. split; [|done].
    intros r f [=].
Qed.

End probe.

(** ** The web layer *)

(** What [VideoProcessor.merge_videos] does on inputs that pass its
    validation: it raises the error of [open], or leaves the placeholder. *)
Lemma web_merge_videos_validated (refuses : Refusal)
    (self : video_processor.VideoProcessor) (video_files : list string)
    (output_path : string) (w : World) :
  2 <= length video_files ->
  Forall (fun p => is_Some (fs w !! p)) video_files ->
  video_processor.merge_videos refuses self video_files output_path w =
  match open_error refuses (fs w) output_path with
  | Some e => (Raised e, w)
  | None =>
      (Returned output_path,
       set_fs (<[output_path :=
                   ("# Placeholder merged video file" +:+ LF) +:+
                   ("# Merged from " +:+ str_of_nat (length video_files)
                    +:+ " videos" +:+ LF)]> (fs w)) w)
  end.
Proof.
  intros Hlen Hex. unfold video_processor.merge_videos.
  replace (video_processor.not_list video_files) with false
    by (destruct video_files; [cbn in Hlen; lia|done]).
  rewrite (proj2 (Nat.ltb_ge _ _) Hlen). cbn [orb].
  rewrite bind_eq, for_each_ok.
  - rewrite bind_eq, bind_eq. unfold open_w_at.
    destruct (open_error refuses (fs w) output_path) as [e|]; [done|].
    unfold open_w.
    by rewrite bind_eq, !file_write_open, append_nil_l.
  - eapply Forall_impl; [exact Hex|]. intros p Hp. cbn beta.
    by rewrite bind_eq, os_path_exists_true.
Qed.


(** C10. [allowed_file] returns a boolean and raises nothing. It returns
    [True] exactly when the filename is some text, a dot, and an extension
    without a dot (so the extension is what follows the last dot) whose
    lowercase form, as [str.lower] gives it, is in the set; a filename
    without a dot is rejected. *)
Theorem allowed_file_iff (lower : string -> string) (filename : string)
    (allowed_extensions : gset string) :
  (exists b, app.allowed_file lower filename allowed_extensions = Returned b) /\
  (app.allowed_file lower filename allowed_extensions = Returned true <->
   exists stem ext,
     filename = stem +:+ "." +:+ ext /\
     str_in "." ext = false /\
     lower ext ∈ allowed_extensions) /\
  (str_in "." filename = false ->
   app.allowed_file lower filename allowed_extensions = Returned false).
Proof.
  unfold app.allowed_file.
  destruct (str_in "." filename) eqn:Hdot.
  - destruct (rcut "." filename) as [[l r]|] eqn:Hcut.
    2:{ apply rcut_None in Hcut. congruence. }
    unfold rsplit1. rewrite Hcut. cbn.
    split; [by eexists|]. split; [|done].
    apply rcut_Some in Hcut as Hcut'. destruct Hcut' as [Hf Hr].
    split.
    + intros [= Hin%bool_decide_eq_true_1]. by exists l, r.
    + intros (stem & ext & Hf' & Hext & Hin).
      assert (rcut "." filename = Some (stem, ext)) as Hcut2
        by (by apply rcut_Some).
      rewrite Hcut in Hcut2. injection Hcut2 as -> ->.
      by rewrite bool_decide_eq_true_2.
  - split; [by eexists|]. split; [|done]. split; [done|].
    intros (stem & ext & -> & _). rewrite str_in_app in Hdot.
    change ("." +:+ ext) with (String "." ext) in Hdot. cbn in Hdot.
    by rewrite orb_true_r in Hdot.
Qed.

(** ** The theorems at concrete inputs *)


Lemma two_clips_exist_2 :
  Forall (fun p => is_Some (fs two_clips !! p)) ["a.mp4"; "b.mp4"].
Proof. repeat constructor; by eexists. Defined.


(** No transcoder installed: the call returns and leaves no manifest. *)
Lemma merge_videos_manifest_removed_witness :
  2 <= length ["a.mp4"; "b.mp4"] /\
  Forall (fun p => is_Some (fs two_clips !! p)) ["a.mp4"; "b.mp4"] /\
  exists b w',
    video_processor_cli.merge_videos ffmpeg_missing ["a.mp4"; "b.mp4"]
      "out.mp4" "medium" false two_clips = (Returned b, w') /\
    fs w' !! "concat_list.txt" = None.
Proof.
  assert (2 <= length ["a.mp4"; "b.mp4"]) as H1 by (cbn; lia).
  split; [exact H1|]. split; [exact two_clips_exist_2|].
  exact (merge_videos_manifest_removed ffmpeg_missing ["a.mp4"; "b.mp4"]
           "out.mp4" "medium" false two_clips H1 two_clips_exist_2).
Defined.


(** An unknown tier is encoded as [medium] is. *)
Lemma merge_videos_quality_args_witness :
  2 <= length ["a.mp4"; "b.mp4"] /\
  Forall (fun p => is_Some (fs two_clips !! p)) ["a.mp4"; "b.mp4"] /\
  exists call,
    run_calls (video_processor_cli.merge_videos ffmpeg_ok ["a.mp4"; "b.mp4"]
                 "out.mp4" "ultra" false two_clips).2 = [call] /\
    argv call =
      ["ffmpeg"; "-f"; "concat"; "-safe"; "0"; "-i"; "concat_list.txt";
       "-c:v"; "libx264"; "-preset"; "medium"; "-crf"; "23";
       "-c:a"; "aac"; "out.mp4"].
Proof.
  assert (2 <= length ["a.mp4"; "b.mp4"]) as H1 by (cbn; lia).
  split; [exact H1|]. split; [exact two_clips_exist_2|].
  destruct (merge_videos_quality_args ffmpeg_ok ["a.mp4"; "b.mp4"]
              "out.mp4" "ultra" false two_clips H1 two_clips_exist_2)
    as (call & args & Hc & Ha & _ & _ & _ & Ho).
  destruct Ho as [-> _]; [discriminate..|].
  exists call. split; [exact Hc|exact Ha].
Defined.

(** One input is not enough. *)
Lemma merge_videos_insufficient_inputs_witness :
  length ["a.mp4"] < 2 /\
  let run := video_processor_cli.merge_videos ffmpeg_ok ["a.mp4"]
               "out.mp4" "medium" false two_clips in
  run.1 = Returned false /\
  sys_stderr run.2 = "Error: At least 2 videos required" +:+ LF /\
  fs run.2 = fs two_clips /\
  run_calls run.2 = [].
Proof.
  assert (length ["a.mp4"] < 2) as H1 by (cbn; lia).
  split; [exact H1|].
  destruct (merge_videos_insufficient_inputs ffmpeg_ok ["a.mp4"]
              "out.mp4" "medium" false two_clips H1)
    as (Hr & He & _ & Hf & Hc).
  cbv zeta. split; [exact Hr|]. split; [exact He|]. split; [exact Hf|exact Hc].
Defined.

(** Two missing files: the first of them is the one reported. *)
Lemma merge_videos_first_missing_file_witness :
  2 <= length ["a.mp4"; "x.mp4"; "b.mp4"; "y.mp4"] /\
  Exists (fun p => fs two_clips !! p = None)
    ["a.mp4"; "x.mp4"; "b.mp4"; "y.mp4"] /\
  let run := video_processor_cli.merge_videos ffmpeg_ok
               ["a.mp4"; "x.mp4"; "b.mp4"; "y.mp4"] "out.mp4" "medium" false
               two_clips in
  run.1 = Returned false /\
  sys_stderr run.2 = "Error: File not found: x.mp4" +:+ LF /\
  fs run.2 = fs two_clips /\
  run_calls run.2 = [].
Proof.
  assert (2 <= length ["a.mp4"; "x.mp4"; "b.mp4"; "y.mp4"]) as H1
    by (cbn; lia).
  assert (Exists (fun p => fs two_clips !! p = None)
            ["a.mp4"; "x.mp4"; "b.mp4"; "y.mp4"]) as H2
    by (apply Exists_cons_tl, Exists_cons_hd; reflexivity).
  split; [exact H1|]. split; [exact H2|].
  destruct (merge_videos_first_missing_file ffmpeg_ok
              ["a.mp4"; "x.mp4"; "b.mp4"; "y.mp4"] "out.mp4" "medium" false
              two_clips H1 H2)
    as (before & p & after & E & Hb & Hp & Hr & He & _ & Hf & Hc).
  assert (p = "x.mp4") as ->.
  { destruct before as [|b1 [|b2 before]].
    - injection E as <- _. vm_compute in Hp. discriminate.
    - injection E as _ <- _. reflexivity.
    - injection E as _ <- _.
      apply Forall_cons in Hb as [_ Hb]. apply Forall_cons in Hb as [[c Hc'] _].
      vm_compute in Hc'. discriminate. }
  cbv zeta. split; [exact Hr|]. split; [|split; [exact Hf|exact Hc]].
  rewrite He. reflexivity.
Defined.



(** The same in a directory without subdirectories, on a path under one. *)
Example web_merge_videos_missing_directory :
  (video_processor.merge_videos no_subdirectory video_processor.__init__
     ["a.mp4"; "b.mp4"] "nodir/out.mp4" two_clips).1 =
  Raised (FileNotFoundError
            "[Errno 2] No such file or directory: 'nodir/out.mp4'").
Proof. reflexivity. Qed.


(** ** Runs on the sample transcoders *)

(** Two existing clips, [quality="high"], [overwrite=True], exit status 0:
    success, the success line, the full command line, and no manifest left. *)
Example merge_two_clips_ok :
  let run := video_processor_cli.merge_videos ffmpeg_ok ["a.mp4"; "b.mp4"]
               "out.mp4" "high" true two_clips in
  run.1 = Returned true /\
  sys_stdout run.2 = "Successfully merged videos to out.mp4" +:+ LF /\
  sys_stderr run.2 = EmptyString /\
  fs run.2 = fs two_clips /\
  argv <$> run_calls run.2 =
    [["ffmpeg"; "-f"; "concat"; "-safe"; "0"; "-i"; "concat_list.txt";
      "-c:v"; "libx264"; "-preset"; "medium"; "-crf"; "18";
      "-c:a"; "aac"; "-y"; "out.mp4"]].
Proof. vm_compute. repeat split. Qed.

(** No executable: the exception is reported, nothing is left behind. *)
Example merge_two_clips_no_ffmpeg :
  let run := video_processor_cli.merge_videos ffmpeg_missing
               ["a.mp4"; "b.mp4"] "out.mp4" "medium" false two_clips in
  run.1 = Returned false /\
  sys_stderr run.2 =
    "Error: [Errno 2] No such file or directory: 'ffmpeg'" +:+ LF /\
  fs run.2 = fs two_clips.
Proof. vm_compute. repeat split. Qed.

Example check_ffmpeg_missing :
  (video_processor_cli.check_ffmpeg ffmpeg_missing two_clips).1
  = Returned false.
Proof. reflexivity. Qed.

Example check_ffmpeg_nonzero :
  (video_processor_cli.check_ffmpeg ffmpeg_invalid_codec two_clips).1
  = Returned false.
Proof. reflexivity. Qed.

Example check_ffmpeg_ok :
  (video_processor_cli.check_ffmpeg ffmpeg_ok two_clips).1 = Returned true.
Proof. reflexivity. Qed.

Example get_ffmpeg_version_ok :
  (video_processor_cli.get_ffmpeg_version ffmpeg_ok two_clips).1
  = Returned "ffmpeg version 6.0".
Proof. reflexivity. Qed.

Example get_ffmpeg_version_missing :
  (video_processor_cli.get_ffmpeg_version ffmpeg_missing two_clips).1
  = Returned "unknown".
Proof. reflexivity. Qed.

Example web_merge_one_file :
  (video_processor.merge_videos any_path video_processor.__init__ ["a.mp4"]
     "merged_video.mp4" two_clips).1
  = Raised (ValueError "At least 2 video files are required for merging").
Proof. reflexivity. Qed.

Example web_merge_missing_files :
  (video_processor.merge_videos any_path video_processor.__init__
     ["fake1.mp4"; "fake2.mp4"] "output.mp4" two_clips).1
  = Raised (FileNotFoundError "Video file not found: fake1.mp4").
Proof. reflexivity. Qed.

(** On ASCII names: the last extension decides, case is ignored, a bare
    name is refused. *)
Example allowed_file_samples :
  let E : gset string := {["mp4"; "avi"; "mov"; "mkv"; "webm"]} in
  app.allowed_file ascii_lower "clip.MP4" E = Returned true /\
  app.allowed_file ascii_lower "clip.mp4.txt" E = Returned false /\
  app.allowed_file ascii_lower "clip.txt.mp4" E = Returned true /\
  app.allowed_file ascii_lower "mp4" E = Returned false /\
  app.allowed_file ascii_lower "clip." E = Returned false.
Proof. vm_compute. repeat split. Qed.

(** * Further properties of the code *)

(** ** The command line: the probe and [merge_videos] *)

Section cli_more.
Import video_processor_cli.
Variable exec : Exec.

Lemma check_ffmpeg_eq (w : World) :
  check_ffmpeg exec w =
  let '(r, fs') := exec ["ffmpeg"; "-version"] (Some 5%Z) (fs w) in
  let w1 := set_fs fs' (add_run_call
                      {| argv := ["ffmpeg"; "-version"]; timeout := Some 5%Z;
                      seen := fs w |} w) in
  match r with
  | Returned result =>
      if (returncode result =? 0)%Z then
        (Returned true, add_stdout ("FFmpeg available" +:+ LF) w1)
      else (Returned false, add_stdout ("FFmpeg not available" +:+ LF) w1)
  | Raised _ => (Returned false, add_stdout ("FFmpeg not available" +:+ LF) w1)
  end.
Proof.
  unfold check_ffmpeg, try_except. rewrite bind_eq.
  unfold subprocess_run at 1.
  destruct (exec _ _ _) as [[result|e] fs']; [|reflexivity].
  by destruct (returncode result =? 0)%Z.
Qed.

Lemma get_ffmpeg_version_eq (w : World) :
  get_ffmpeg_version exec w =
  let '(r, fs') := exec ["ffmpeg"; "-version"] (Some 5%Z) (fs w) in
  let w1 := set_fs fs' (add_run_call
                      {| argv := ["ffmpeg"; "-version"]; timeout := Some 5%Z;
                      seen := fs w |} w) in
  match r with
  | Returned result =>
      if (returncode result =? 0)%Z then
        let v := default EmptyString (head (split LF_char (stdout result))) in
        (Returned v, add_stdout (v +:+ LF) w1)
      else (Returned "unknown", add_stdout ("unknown" +:+ LF) w1)
  | Raised _ => (Returned "unknown", add_stdout ("unknown" +:+ LF) w1)
  end.
Proof.
  unfold get_ffmpeg_version, try_except. rewrite bind_eq.
  unfold subprocess_run at 1.
  destruct (exec _ _ _) as [[result|e] fs']; [|reflexivity].
  destruct (returncode result =? 0)%Z; [|reflexivity].
  rewrite bind_eq. unfold lift, getitem.
  destruct (split_head LF_char (stdout result)) as (h & t & -> & _).
  reflexivity.
Qed.

(** X1. [check_ffmpeg] runs [ffmpeg -version] once, with a timeout of five
    seconds, prints [FFmpeg available] when it returns [True] and
    [FFmpeg not available] when it returns [False], prints nothing to the
    error stream and leaves the files as the probe left them. *)
Theorem check_ffmpeg_prints (w : World) :
  let run := check_ffmpeg exec w in
  exists b,
    run.1 = Returned b /\
    sys_stdout run.2 = sys_stdout w +:+
      (if b : bool then "FFmpeg available" else "FFmpeg not available") +:+ LF /\
    sys_stderr run.2 = sys_stderr w /\
    run_calls run.2 =
      run_calls w ++ [{| argv := ["ffmpeg"; "-version"]; timeout := Some 5%Z;
                       seen := fs w |}] /\
    fs run.2 = (exec ["ffmpeg"; "-version"] (Some 5%Z) (fs w)).2.
Proof.
  cbv zeta. rewrite check_ffmpeg_eq.
  destruct (exec _ _ _) as [[result|e] fs'];
    [destruct (returncode result =? 0)%Z|]; by eexists.
Qed.

(** X2. [get_ffmpeg_version] prints exactly the line it returns, and
    nothing else; like [check_ffmpeg] it runs [ffmpeg -version] once with a
    timeout of five seconds. *)
Theorem get_ffmpeg_version_prints (w : World) :
  let run := get_ffmpeg_version exec w in
  exists v,
    run.1 = Returned v /\
    sys_stdout run.2 = sys_stdout w +:+ v +:+ LF /\
    sys_stderr run.2 = sys_stderr w /\
    run_calls run.2 =
      run_calls w ++ [{| argv := ["ffmpeg"; "-version"]; timeout := Some 5%Z;
                       seen := fs w |}].
Proof.
  cbv zeta. rewrite get_ffmpeg_version_eq.
  destruct (exec _ _ _) as [[result|e] fs'];
    [destruct (returncode result =? 0)%Z|]; by eexists.
Qed.

(** X4. When running the transcoder raises an exception in a call of
    [merge_videos] that passes validation, the call returns [False] and
    prints [Error: ] followed by the message of the exception to the error
    stream; nothing goes to standard output. *)
Theorem merge_videos_invocation_error (input_paths : list string)
    (output_path quality : string) (overwrite : bool) (w : World) :
  2 <= length input_paths ->
  Forall (fun p => is_Some (fs w !! p)) input_paths ->
  let run := merge_videos exec input_paths output_path quality overwrite w in
  exists call,
    run_calls run.2 = run_calls w ++ [call] /\
    forall e fs2,
      exec (argv call) (timeout call) (seen call) = (Raised e, fs2) ->
      run.1 = Returned false /\
      sys_stderr run.2 = sys_stderr w +:+ ("Error: " +:+ str e) +:+ LF /\
      sys_stdout run.2 = sys_stdout w.
Proof.
  intros Hlen Hex run. subst run.
  rewrite (merge_videos_valid exec) by done. cbv zeta.
  eexists. split.
  - destruct (exec _ None _) as [[result|e] fs2];
      [destruct (returncode result =? 0)%Z|]; reflexivity.
  - cbn [argv timeout seen]. by intros e fs2 ->.
Qed.

(** X5. A call of [merge_videos] that passes validation leaves on disk what
    the transcoder left, less [concat_list.txt]. So with a transcoder that
    leaves the files as it found them every file but [concat_list.txt] is
    as before the call, and a [concat_list.txt] that was there before the
    call is lost. *)
Theorem merge_videos_files (input_paths : list string)
    (output_path quality : string) (overwrite : bool) (w : World) :
  2 <= length input_paths ->
  Forall (fun p => is_Some (fs w !! p)) input_paths ->
  let run := merge_videos exec input_paths output_path quality overwrite w in
  exists call,
    run_calls run.2 = run_calls w ++ [call] /\
    let left := (exec (argv call) (timeout call) (seen call)).2 in
    fs run.2 = delete "concat_list.txt" left /\
    (left = seen call -> fs run.2 = delete "concat_list.txt" (fs w)).
Proof.
  intros Hlen Hex run. subst run.
  rewrite (merge_videos_valid exec) by done. cbv zeta.
  eexists. split; [|split].
  - destruct (exec _ None _) as [[result|e] fs2];
      [destruct (returncode result =? 0)%Z|]; reflexivity.
  - cbn [argv timeout seen].
    destruct (exec _ None _) as [[result|e] fs2];
      [destruct (returncode result =? 0)%Z|]; reflexivity.
  - cbn [argv timeout seen].
    destruct (exec _ None _) as [[result|e] fs2];
      [destruct (returncode result =? 0)%Z|]; cbn; intros ->;
      apply delete_insert_eq.
Qed.

(** ** The command line: [main] *)


(** X6. Once [parse_args] has returned a namespace with [check_ffmpeg]
    set, the exit status of [main] is 0 when [ffmpeg -version] completes
    with exit status 0 and 1 otherwise, and [main] does what [check_ffmpeg]
    does and nothing more, whatever the other fields of the namespace are:
    [--merge] accepted along with it merges nothing. *)
Theorem main_check_ffmpeg (format_help : string) (args : Namespace)
    (w : World) :
  arg_check_ffmpeg args = true ->
  let run := main exec format_help args w in
  exists z,
    run.1 = Returned z /\
    (z = 0%Z <->
     exists result fs',
       exec ["ffmpeg"; "-version"] (Some 5%Z) (fs w) = (Returned result, fs')
       /\ returncode result = 0%Z) /\
    (z <> 0%Z -> z = 1%Z) /\
    run.2 = (check_ffmpeg exec w).2.
Proof.
  intros Hflag run. subst run. unfold main. rewrite Hflag, bind_eq.
  rewrite check_ffmpeg_eq.
  destruct (exec _ _ _) as [[result|e] fs'] eqn:E.
  - destruct (Z.eqb_spec (returncode result) 0) as [Hrc|Hrc]; cbn.
    + exists 0%Z. repeat split; try done. intros _. by exists result, fs'.
    + exists 1%Z. repeat split; try done.
      intros (r & f & [= <- <-] & Hr). done.
  - exists 1%Z. cbn. repeat split; try done. intros (r & f & [=] & _).
Qed.

(** X7. With [--version] and without [--check-ffmpeg] the exit status of
    [main] is 0 whatever the probe does, also when there is no transcoder,
    and [main] does what [get_ffmpeg_version] does and nothing more. *)
Theorem main_version (format_help : string) (args : Namespace) (w : World) :
  arg_check_ffmpeg args = false ->
  arg_version args = true ->
  let run := main exec format_help args w in
  run.1 = Returned 0%Z /\
  run.2 = (get_ffmpeg_version exec w).2.
Proof.
  intros Hc Hv run. subst run. unfold main. rewrite Hc, Hv, bind_eq.
  rewrite get_ffmpeg_version_eq.
  destruct (exec _ _ _) as [[result|e] fs'];
    [destruct (returncode result =? 0)%Z|]; done.
Qed.



(** X10. Once [parse_args] has returned, [main] raises nothing and its
    exit status is 0 or 1, whatever the namespace and the transcoder. (The
    statuses that argparse gives on its own, 2 for a refused command line
    and 0 for [--help], come before that point.) With none of
    [check_ffmpeg], [version] and [merge] set it prints the help of the
    parser and the status is 1; it runs no process and touches no file. *)
Theorem main_exit_status (format_help : string) (args : Namespace)
    (w : World) :
  let run := main exec format_help args w in
  exists z,
    run.1 = Returned z /\
    (z = 0%Z \/ z = 1%Z) /\
    (arg_check_ffmpeg args = false -> arg_version args = false ->
     arg_merge args = false ->
     z = 1%Z /\
     sys_stdout run.2 = sys_stdout w +:+ format_help /\
     sys_stderr run.2 = sys_stderr w /\
     fs run.2 = fs w /\
     run_calls run.2 = run_calls w).
Proof.
  cbv zeta. unfold main.
  destruct (arg_check_ffmpeg args).
  { rewrite bind_eq, check_ffmpeg_eq.
    destruct (exec _ _ _) as [[result|e] fs'];
      [destruct (returncode result =? 0)%Z|]; eexists;
      (split; [reflexivity|]); (split; [|done]); auto. }
  destruct (arg_version args).
  { rewrite bind_eq, get_ffmpeg_version_eq.
    destruct (exec _ _ _) as [[result|e] fs'];
      [destruct (returncode result =? 0)%Z|]; eexists;
      (split; [reflexivity|]); (split; [|done]); auto. }
  destruct (arg_merge args).
  - destruct (_ || _).
    + exists 1%Z. split; [done|]. split; [by right|done].
    + rewrite bind_eq.
      destruct (merge_videos_returns exec (default [] (arg_inputs args))
                  (default EmptyString (arg_output args)) (arg_quality args)
                  (arg_overwrite args) w) as ([] & w' & ->);
        eexists; (split; [reflexivity|]); (split; [|done]); auto.
  - exists 1%Z. split; [done|]. split; [by right|]. by intros _ _ _.
Qed.

End cli_more.

(** X4 with no transcoder on the search path. *)
Lemma merge_videos_invocation_error_witness :
  2 <= length ["a.mp4"; "b.mp4"] /\
  Forall (fun p => is_Some (fs two_clips !! p)) ["a.mp4"; "b.mp4"] /\
  let run := video_processor_cli.merge_videos ffmpeg_missing
               ["a.mp4"; "b.mp4"] "out.mp4" "medium" false two_clips in
  run.1 = Returned false /\
  sys_stderr run.2 =
    "Error: [Errno 2] No such file or directory: 'ffmpeg'" +:+ LF.
Proof.
  assert (2 <= length ["a.mp4"; "b.mp4"]) as H1 by (cbn; lia).
  split; [exact H1|]. split; [exact two_clips_exist_2|].
  destruct (merge_videos_invocation_error ffmpeg_missing ["a.mp4"; "b.mp4"]
              "out.mp4" "medium" false two_clips H1 two_clips_exist_2)
    as (call & _ & Hrun).
  destruct (Hrun (FileNotFoundError
                    "[Errno 2] No such file or directory: 'ffmpeg'")
              (seen call) eq_refl) as (Hr & He & _).
  cbv zeta. split; [exact Hr|]. rewrite He. reflexivity.
Defined.

(** X5 with a transcoder that touches no file. *)
Lemma merge_videos_files_witness :
  2 <= length ["a.mp4"; "b.mp4"] /\
  Forall (fun p => is_Some (fs two_clips !! p)) ["a.mp4"; "b.mp4"] /\
  fs (video_processor_cli.merge_videos ffmpeg_ok ["a.mp4"; "b.mp4"]
        "out.mp4" "medium" false two_clips).2
  = delete "concat_list.txt" (fs two_clips).
Proof.
  assert (2 <= length ["a.mp4"; "b.mp4"]) as H1 by (cbn; lia).
  split; [exact H1|]. split; [exact two_clips_exist_2|].
  destruct (merge_videos_files ffmpeg_ok ["a.mp4"; "b.mp4"]
              "out.mp4" "medium" false two_clips H1 two_clips_exist_2)
    as (call & _ & _ & Hquiet).
  apply Hquiet. reflexivity.
Defined.

(** X6: [--check-ffmpeg --merge ...] on a working transcoder only probes. *)
Lemma main_check_ffmpeg_witness :
  video_processor_cli.arg_check_ffmpeg check_and_merge_args = true /\
  exists z,
    (video_processor_cli.main ffmpeg_ok "usage" check_and_merge_args
       two_clips).1 = Returned z /\
    (video_processor_cli.main ffmpeg_ok "usage" check_and_merge_args
       two_clips).2
    = (video_processor_cli.check_ffmpeg ffmpeg_ok two_clips).2.
Proof.
  split; [reflexivity|].
  destruct (main_check_ffmpeg ffmpeg_ok "usage" check_and_merge_args
              two_clips eq_refl) as (z & Hz & _ & _ & Hw).
  exists z. split; [exact Hz|exact Hw].
Defined.

(** X7: [--version] without a transcoder still ends with status 0. *)
Lemma main_version_witness :
  video_processor_cli.arg_check_ffmpeg version_args = false /\
  video_processor_cli.arg_version version_args = true /\
  (video_processor_cli.main ffmpeg_missing "usage" version_args
     two_clips).1 = Returned 0%Z.
Proof.
  split; [reflexivity|]. split; [reflexivity|].
  exact (proj1 (main_version ffmpeg_missing "usage" version_args two_clips
                  eq_refl eq_refl)).
Defined.



(** ** The processor of the web layer *)

(** The inputs are too few, or all there, or some first one is missing. *)
Lemma validation_cases (files : gmap string string) (paths : list string) :
  length paths < 2 \/
  (2 <= length paths /\ Forall (fun p => is_Some (files !! p)) paths) \/
  (2 <= length paths /\
   exists before p after,
     paths = before ++ p :: after /\
     Forall (fun q => is_Some (files !! q)) before /\
     files !! p = None).
Proof.
  destruct (decide (length paths < 2)) as [Hlen|Hlen]; [by left|right].
  destruct (decide (Forall (fun p => is_Some (files !! p)) paths))
    as [Hex|Hex]; [left; split; [lia|done]|right].
  split; [lia|]. apply first_missing.
  apply not_Forall_Exists in Hex; [|apply _].
  eapply Exists_impl; [exact Hex|]. intros q Hq. unfold compose in Hq.
  destruct (files !! q); [|done]. by destruct Hq.
Qed.

(** A loop raises at the first element whose body raises. *)
Lemma for_each_raise {A} (body : A -> M unit) (l1 l2 : list A) (x : A)
    (e : Exception) (w w' : World) :
  Forall (fun y => body y w = (Returned tt, w)) l1 ->
  body x w = (Raised e, w') ->
  for_each (l1 ++ x :: l2) body w = (Raised e, w').
Proof.
  intros Hl1 Hx. induction Hl1 as [|y l1 Hy _ IH]; cbn [for_each app].
  - by rewrite bind_eq, Hx.
  - by rewrite bind_eq, Hy.
Qed.


Section processor.
Import video_processor.
Variable refuses : Refusal.
Variable lower : string -> string.
Variable self : VideoProcessor.

Lemma web_merge_videos_short (video_files : list string)
    (output_path : string) (w : World) :
  length video_files < 2 ->
  merge_videos refuses self video_files output_path w =
  (Raised (ValueError "At least 2 video files are required for merging"), w).
Proof.
  intros Hlen. unfold merge_videos.
  rewrite (proj2 (Nat.ltb_lt _ _) Hlen). by rewrite orb_true_r.
Qed.

Lemma web_merge_videos_missing (before after : list string) (p : string)
    (output_path : string) (w : World) :
  2 <= length (before ++ p :: after) ->
  Forall (fun q => is_Some (fs w !! q)) before ->
  fs w !! p = None ->
  merge_videos refuses self (before ++ p :: after) output_path w =
  (Raised (FileNotFoundError ("Video file not found: " +:+ p)), w).
Proof.
  intros Hlen Hb Hp. unfold merge_videos.
  replace (not_list (before ++ p :: after)) with false
    by (by destruct before).
  rewrite (proj2 (Nat.ltb_ge _ _) Hlen). cbn [orb].
  rewrite bind_eq.
  rewrite (for_each_raise _ before after p
             (FileNotFoundError ("Video file not found: " +:+ p)) w w).
  - reflexivity.
  - eapply Forall_impl; [exact Hb|]. intros q Hq. cbn beta.
    by rewrite bind_eq, os_path_exists_true.
  - by rewrite bind_eq, os_path_exists_false.
Qed.

(** A call that has returned had valid inputs and a path that [open]
    accepted, and has left the placeholder there. *)
Lemma web_merge_videos_returned (video_files : list string)
    (output_path out : string) (w : World) :
  (merge_videos refuses self video_files output_path w).1 = Returned out ->
  2 <= length video_files /\
  Forall (fun p => is_Some (fs w !! p)) video_files /\
  open_error refuses (fs w) output_path = None /\
  merge_videos refuses self video_files output_path w =
  (Returned output_path,
   set_fs (<[output_path :=
               ("# Placeholder merged video file" +:+ LF) +:+
               ("# Merged from " +:+ str_of_nat (length video_files)
                +:+ " videos" +:+ LF)]> (fs w)) w).
Proof.
  destruct (validation_cases (fs w) video_files)
    as [Hlen|[[Hlen Hex]|(Hlen & b & p & a & -> & Hb & Hp)]].
  - by rewrite web_merge_videos_short.
  - rewrite web_merge_videos_validated by done.
    by destruct (open_error refuses (fs w) output_path).
  - by rewrite web_merge_videos_missing.
Qed.

(** X11. With fewer than two video files, the empty list included,
    [VideoProcessor.merge_videos] raises [ValueError] and does nothing
    else: no output file is written. *)
Theorem web_merge_videos_too_few (video_files : list string)
    (output_path : string) (w : World) :
  length video_files < 2 ->
  merge_videos refuses self video_files output_path w =
  (Raised (ValueError "At least 2 video files are required for merging"), w).
Proof. apply web_merge_videos_short. Qed.

(** X12. With at least two video files of which some do not exist,
    [VideoProcessor.merge_videos] raises [FileNotFoundError] with the
    message [Video file not found: ] followed by the first path of the list
    that does not exist, and does nothing else: no output file is written,
    not even when the output path is new. *)
Theorem web_merge_videos_first_missing (video_files : list string)
    (output_path : string) (w : World) :
  2 <= length video_files ->
  Exists (fun p => fs w !! p = None) video_files ->
  exists before p after,
    video_files = before ++ p :: after /\
    Forall (fun q => is_Some (fs w !! q)) before /\
    fs w !! p = None /\
    merge_videos refuses self video_files output_path w =
    (Raised (FileNotFoundError ("Video file not found: " +:+ p)), w).
Proof.
  intros Hlen Hmiss.
  destruct (first_missing _ _ Hmiss) as (before & p & after & E & Hb & Hp).
  exists before, p, after. split; [done|]. split; [done|]. split; [done|].
  subst video_files. by apply web_merge_videos_missing.
Qed.

(** The last piece of [rsplit1] is what follows the last separator, or the
    whole string when it holds none. *)
Lemma getitem_last_rsplit1 (sep : ascii) (s : string) :
  getitem_last (rsplit1 sep s) =
  Returned (match rcut sep s with Some (_, r) => r | None => s end).
Proof. unfold rsplit1. by destruct (rcut sep s) as [[l r]|]. Qed.

Lemma validate_video_eq (video_path : string) (w : World) :
  validate_video lower self video_path w =
  (Returned
     (bool_decide (is_Some (fs w !! video_path)) &&
      bool_decide
        (lower (match rcut "." video_path with
                | Some (_, r) => r
                | None => video_path
                end) ∈ supported_formats self)),
   w).
Proof.
  unfold validate_video. rewrite bind_eq. unfold os_path_exists at 1.
  destruct (bool_decide (is_Some (fs w !! video_path))); [|reflexivity].
  cbn [negb andb]. by rewrite bind_eq, getitem_last_rsplit1.
Qed.

(** X13. [validate_video] raises nothing and changes nothing. It returns
    [True] exactly when the path exists and the lowercase form of its
    extension, as [str.lower] gives it, is one of the supported formats,
    where the extension is what follows the last dot and, for a path
    without a dot, the whole path. *)
Theorem validate_video_iff (video_path : string) (w : World) :
  exists b,
    validate_video lower self video_path w = (Returned b, w) /\
    (b = true <->
     is_Some (fs w !! video_path) /\
     ((exists stem ext,
         video_path = stem +:+ "." +:+ ext /\
         str_in "." ext = false /\
         lower ext ∈ supported_formats self) \/
      (str_in "." video_path = false /\
       lower video_path ∈ supported_formats self))).
Proof.
  rewrite validate_video_eq. eexists. split; [reflexivity|].
  rewrite andb_true_iff, !bool_decide_eq_true.
  apply and_iff_compat_l.
  destruct (rcut "." video_path) as [[l r]|] eqn:Hcut.
  - apply rcut_Some in Hcut as Hcut'. destruct Hcut' as [Hf Hr]. split.
    + intros Hin. left. by exists l, r.
    + intros [(stem & ext & Hf' & Hext & Hin)|[Hno _]].
      * assert (rcut "." video_path = Some (stem, ext)) as Hcut2
          by (by apply rcut_Some).
        rewrite Hcut in Hcut2. by injection Hcut2 as -> ->.
      * apply rcut_None in Hno. congruence.
  - apply rcut_None in Hcut as Hno. split.
    + intros Hin. by right.
    + intros [(stem & ext & Hf' & Hext & Hin)|[_ Hin]]; [|done].
      assert (rcut "." video_path = Some (stem, ext)) as Hcut2
        by (by apply rcut_Some).
      congruence.
Qed.

(** X14. On an existing path with a dot [validate_video] gives what the
    upload filter [allowed_file] gives for the same extensions. On an
    existing path without a dot they differ: [allowed_file] refuses it,
    [validate_video] accepts it when the whole path, put in lowercase by
    [str.lower], is a supported format. *)
Theorem validate_video_allowed_file (video_path : string) (w : World) :
  is_Some (fs w !! video_path) ->
  let E : gset string := list_to_set (supported_formats self) in
  (str_in "." video_path = true ->
   (validate_video lower self video_path w).1
   = app.allowed_file lower video_path E) /\
  (str_in "." video_path = false ->
   app.allowed_file lower video_path E = Returned false /\
   (validate_video lower self video_path w).1 =
     Returned (bool_decide (lower video_path ∈ supported_formats self))).
Proof.
  intros Hex E. rewrite validate_video_eq. cbn [fst].
  rewrite (bool_decide_eq_true_2 _ Hex). cbn [andb].
  unfold app.allowed_file. split; intros Hdot; rewrite Hdot.
  - destruct (rcut "." video_path) as [[l r]|] eqn:Hcut.
    2:{ apply rcut_None in Hcut. congruence. }
    unfold rsplit1. rewrite Hcut. cbn. f_equal.
    apply bool_decide_ext. subst E. by rewrite elem_of_list_to_set.
  - split; [done|]. apply rcut_None in Hdot. by rewrite Hdot.
Qed.

Lemma get_video_info_eq (video_path : string) (w : World) :
  get_video_info self video_path w =
  (Returned
     (<["path" := PStr video_path]>
      (<["exists" := PBool (bool_decide (is_Some (fs w !! video_path)))]>
      (<["size" :=
           PInt (match fs w !! video_path with
                 | Some c => Z.of_nat (String.length c)
                 | None => 0%Z
                 end)]> ∅))),
   w).
Proof.
  unfold get_video_info.
  destruct (fs w !! video_path) as [c|] eqn:E.
  - rewrite bool_decide_eq_true_2 by done.
    rewrite bind_eq, os_path_exists_true by (by rewrite E).
    rewrite bind_eq, os_path_exists_true by (by rewrite E).
    rewrite bind_eq. unfold os_path_getsize. by rewrite E.
  - rewrite bool_decide_eq_false_2 by (by intros [? ?]).
    rewrite bind_eq, os_path_exists_false by done.
    by rewrite bind_eq, os_path_exists_false by done.
Qed.

(** X15. [get_video_info] raises nothing and changes nothing, also for a
    path that does not exist: its dict has the keys [path], [exists] and
    [size] and no other; for a file that exists [exists] is [True] and
    [size] the number of its bytes, for a path that does not [exists] is
    [False] and [size] is 0. *)
Theorem get_video_info_entries (video_path : string) (w : World) :
  exists info,
    get_video_info self video_path w = (Returned info, w) /\
    dom info = {["path"; "exists"; "size"]} /\
    info !! "path" = Some (PStr video_path) /\
    (forall c, fs w !! video_path = Some c ->
       info !! "exists" = Some (PBool true) /\
       info !! "size" = Some (PInt (Z.of_nat (String.length c)))) /\
    (fs w !! video_path = None ->
       info !! "exists" = Some (PBool false) /\
       info !! "size" = Some (PInt 0)).
Proof.
  rewrite get_video_info_eq. eexists. split; [reflexivity|].
  split; [|split; [|split]].
  - rewrite !dom_insert_L, dom_empty_L. set_solver.
  - by rewrite lookup_insert_eq.
  - intros c Hc. rewrite Hc, bool_decide_eq_true_2 by done.
    split; by simplify_map_eq.
  - intros Hc. rewrite Hc, bool_decide_eq_false_2 by (by intros [? ?]).
    split; by simplify_map_eq.
Qed.


(** X17. After [merge_videos] has returned, [validate_video] accepts the
    output path whenever its extension, put in lowercase by [str.lower], is
    a supported format: the placeholder text passes for a valid video. *)
Theorem validate_video_after_merge (video_files : list string)
    (stem ext out : string) (w : World) :
  let output_path := stem +:+ "." +:+ ext in
  (merge_videos refuses self video_files output_path w).1 = Returned out ->
  str_in "." ext = false ->
  lower ext ∈ supported_formats self ->
  let w' := (merge_videos refuses self video_files output_path w).2 in
  (validate_video lower self output_path w').1 = Returned true.
Proof.
  intros output_path (_ & _ & _ & Hrun)%web_merge_videos_returned Hext Hin w'.
  subst w'. rewrite Hrun. cbn [snd].
  rewrite validate_video_eq. cbn [fst fs set_fs].
  rewrite lookup_insert_eq, bool_decide_eq_true_2 by done. cbn [andb].
  assert (rcut "." output_path = Some (stem, ext)) as ->
    by (by apply rcut_Some).
  by rewrite bool_decide_eq_true_2.
Qed.

End processor.


(** ** The views of the web application *)

Lemma os_path_join_absolute (a b : string) :
  startswith "/" b = true -> os_path_join a b = b.
Proof. intros H. unfold os_path_join. by rewrite H. Qed.

(** A path joined to an absolute folder is absolute. *)
Lemma os_path_join_in_absolute (a b : string) :
  startswith "/" a = true -> startswith "/" (os_path_join a b) = true.
Proof.
  intros Ha. unfold os_path_join.
  destruct (startswith "/" b) eqn:Hb; [done|].
  destruct a as [|c a]; [done|].
  by destruct (not_str (String c a) || endswith "/" (String c a)).
Qed.



Section views.
Import app.
Variable refuses : Refusal.
Variable lower : string -> string.
Variable root_path : string.
Variable UPLOAD_FOLDER OUTPUT_FOLDER : string.
Variable ALLOWED_EXTENSIONS : gset string.
Variable secure_filename : string -> string.




Lemma merge_route_eq (video_files : list string)
    (output_name : option string) (w : World) :
  let output_path :=
    os_path_join OUTPUT_FOLDER (default "merged_video.mp4" output_name) in
  let run := video_processor.merge_videos refuses video_processor video_files
               output_path w in
  merge_videos refuses OUTPUT_FOLDER
    (Some {| req_files := Some video_files;
             req_output_name := output_name |}) w =
  match run.1 with
  | Returned out =>
      (Returned
         {| body := Json (<["message" := PStr "Videos merged successfully"]>
                          (<["output_file" := PStr out]> ∅));
            status_code := 200 |}, run.2)
  | Raised e =>
      (Returned {| body := Json (<["error" := PStr (str e)]> ∅);
                   status_code := 500 |}, run.2)
  end.
Proof.
  cbv zeta. unfold merge_videos, try_except. rewrite bind_eq.
  by destruct (video_processor.merge_videos _ _ _ _ _) as [[out|e] w'].
Qed.



(** X26. What the merge view has written can be downloaded: with an
    absolute output folder, after the merge view has answered 200 under a
    name that [secure_filename] keeps as it is, [download_video] of that
    name sends the placeholder text. *)
Theorem merge_then_download (video_files : list string)
    (output_name : option string) (resp : Response) (w : World) :
  startswith "/" OUTPUT_FOLDER = true ->
  let name := default "merged_video.mp4" output_name in
  let merged :=
    merge_videos refuses OUTPUT_FOLDER
      (Some {| req_files := Some video_files;
               req_output_name := output_name |}) w in
  merged.1 = Returned resp ->
  status_code resp = 200%Z ->
  secure_filename name = name ->
  (download_video root_path OUTPUT_FOLDER secure_filename name merged.2).1 =
  Returned
    {| body :=
         Attachment (os_path_join OUTPUT_FOLDER name)
           (("# Placeholder merged video file" +:+ LF) +:+
            ("# Merged from " +:+ str_of_nat (length video_files)
             +:+ " videos" +:+ LF));
       status_code := 200 |}.
Proof.
  intros Habs name merged. subst merged.
  rewrite merge_route_eq. cbv zeta. fold name.
  destruct (video_processor.merge_videos refuses video_processor video_files
              (os_path_join OUTPUT_FOLDER name) w).1 as [out|e] eqn:Hrun.
  2:{ by intros [= <-] [=]. }
  apply web_merge_videos_returned in Hrun as (_ & _ & _ & Hrun).
  rewrite Hrun. cbn [fst snd]. intros _ _ Hsafe.
  unfold download_video. rewrite Hsafe, bind_eq.
  rewrite os_path_exists_true by (cbn [fs set_fs]; by rewrite lookup_insert_eq).
  unfold send_file.
  rewrite os_path_join_absolute by (by apply os_path_join_in_absolute).
  cbn [fs set_fs]. by rewrite lookup_insert_eq.
Qed.

End views.

(** ** The configuration *)

(** X27. [get_config] raises nothing. It gives [ProductionConfig] for the
    name [production] and [TestingConfig] for [testing], and
    [DevelopmentConfig], whose [DEBUG] is [True], for every other name,
    misspelt ones included; without a name it takes the name from
    [FLASK_ENV], and [development] when that is not set. So [DEBUG] is off
    only under the exact name [production]. *)
Theorem get_config_cases (environ : gmap string string)
    (env : option string) :
  let name :=
    match env with
    | Some name => name
    | None => default "development" (environ !! "FLASK_ENV")
    end in
  exists cls,
    config.get_config environ env = Returned cls /\
    (name = "production" -> cls = config.ProductionConfig) /\
    (name = "testing" -> cls = config.TestingConfig) /\
    (name <> "production" -> name <> "testing" ->
     cls = config.DevelopmentConfig) /\
    (config.DEBUG environ cls = false <-> name = "production").
Proof.
  cbv zeta. unfold config.get_config, os_getenv.
  set (name := match env with
               | Some name => name
               | None => default "development" (environ !! "FLASK_ENV")
               end).
  replace (match env with
           | Some env0 => env0
           | None => default "development" (environ !! "FLASK_ENV")
           end) with name by (by destruct env).
  change (dict_getitem config.config "default")
    with (Returned config.DevelopmentConfig).
  cbn [mbind Result_bind]. unfold mret, Result_ret.
  destruct (decide (name = "production")) as [->|Hp].
  { eexists. split; [reflexivity|]. by repeat split. }
  destruct (decide (name = "testing")) as [->|Ht].
  { eexists. split; [reflexivity|]. by repeat split. }
  destruct (decide (name = "development")) as [->|Hd].
  { eexists. split; [reflexivity|]. by repeat split. }
  destruct (decide (name = "default")) as [->|Hf].
  { eexists. split; [reflexivity|]. by repeat split. }
  unfold dict_get, config.config.
  rewrite !lookup_insert_ne, lookup_empty by done.
  eexists. split; [reflexivity|]. by repeat split.
Qed.

(** ** The further theorems at concrete inputs *)

(** X11 on a single clip. *)
Lemma web_merge_videos_too_few_witness :
  length ["a.mp4"] < 2 /\
  video_processor.merge_videos any_path video_processor.__init__ ["a.mp4"]
    "output.mp4" two_clips =
  (Raised (ValueError "At least 2 video files are required for merging"),
   two_clips).
Proof.
  assert (length ["a.mp4"] < 2) as H by (cbn; lia).
  split; [exact H|].
  exact (web_merge_videos_too_few any_path video_processor.__init__
           ["a.mp4"] "output.mp4" two_clips H).
Defined.

(** X12 on two paths that do not exist: the first one is named. *)
Lemma web_merge_videos_first_missing_witness :
  2 <= length ["fake1.mp4"; "fake2.mp4"] /\
  Exists (fun p => fs two_clips !! p = None) ["fake1.mp4"; "fake2.mp4"] /\
  video_processor.merge_videos any_path video_processor.__init__
    ["fake1.mp4"; "fake2.mp4"] "output.mp4" two_clips =
  (Raised (FileNotFoundError "Video file not found: fake1.mp4"), two_clips).
Proof.
  assert (2 <= length ["fake1.mp4"; "fake2.mp4"]) as H1 by (cbn; lia).
  assert (Exists (fun p => fs two_clips !! p = None)
            ["fake1.mp4"; "fake2.mp4"]) as H2
    by (apply Exists_cons_hd; reflexivity).
  split; [exact H1|]. split; [exact H2|].
  destruct (web_merge_videos_first_missing any_path video_processor.__init__
              ["fake1.mp4"; "fake2.mp4"] "output.mp4" two_clips H1 H2)
    as (before & p & after & E & Hb & _ & Hrun).
  rewrite Hrun. destruct before as [|b1 before].
  - injection E as <- _. reflexivity.
  - apply Forall_cons in Hb as [[c Hc] _]. injection E as <- _.
    vm_compute in Hc. discriminate.
Defined.

(** X14 on a file whose whole name is a format: the filter refuses it, the
    processor accepts it. *)
Lemma validate_video_allowed_file_witness :
  is_Some (fs clips_and_bare_name !! "MOV") /\
  app.allowed_file ascii_lower "MOV"
    (list_to_set (video_processor.supported_formats video_processor.__init__))
  = Returned false /\
  (video_processor.validate_video ascii_lower video_processor.__init__ "MOV"
     clips_and_bare_name).1 = Returned true.
Proof.
  assert (is_Some (fs clips_and_bare_name !! "MOV")) as H by (by eexists).
  split; [exact H|].
  destruct (validate_video_allowed_file ascii_lower video_processor.__init__
              "MOV" clips_and_bare_name H) as [_ Hbare].
  destruct (Hbare eq_refl) as [Ha Hv].
  split; [exact Ha|]. rewrite Hv. reflexivity.
Defined.


(** X17 on the two clips and the default name of the web layer. *)
Lemma validate_video_after_merge_witness :
  (video_processor.merge_videos any_path video_processor.__init__
     ["a.mp4"; "b.mp4"] "merged_video.mp4" two_clips).1
  = Returned "merged_video.mp4" /\
  str_in "." "mp4" = false /\
  ascii_lower "mp4"
  ∈ video_processor.supported_formats video_processor.__init__ /\
  (video_processor.validate_video ascii_lower video_processor.__init__
     "merged_video.mp4"
     (video_processor.merge_videos any_path video_processor.__init__
        ["a.mp4"; "b.mp4"] "merged_video.mp4" two_clips).2).1
  = Returned true.
Proof.
  assert ((video_processor.merge_videos any_path video_processor.__init__
             ["a.mp4"; "b.mp4"] "merged_video.mp4" two_clips).1
          = Returned "merged_video.mp4") as H1 by reflexivity.
  assert (ascii_lower "mp4"
          ∈ video_processor.supported_formats video_processor.__init__)
    as H3 by (apply list_elem_of_here).
  split; [exact H1|]. split; [reflexivity|]. split; [exact H3|].
  exact (validate_video_after_merge any_path ascii_lower
           video_processor.__init__ ["a.mp4"; "b.mp4"] "merged_video" "mp4"
           "merged_video.mp4" two_clips H1 eq_refl H3).
Defined.



(** X26 with the default name and the folders of the tests. *)
Lemma merge_then_download_witness :
  startswith "/" test_outputs = true /\
  keep_name "merged_video.mp4" = "merged_video.mp4" /\
  (app.download_video test_root test_outputs keep_name "merged_video.mp4"
     (app.merge_videos any_path test_outputs
        (Some {| app.req_files := Some ["a.mp4"; "b.mp4"];
                 app.req_output_name := None |}) two_clips).2).1 =
  Returned
    {| app.body :=
         app.Attachment "/tmp/test_outputs/merged_video.mp4"
           ("# Placeholder merged video file" +:+ LF +:+
            "# Merged from 2 videos" +:+ LF);
       app.status_code := 200 |}.
Proof.
  split; [reflexivity|]. split; [reflexivity|].
  exact (merge_then_download any_path test_root test_outputs keep_name
           ["a.mp4"; "b.mp4"] None _ two_clips eq_refl eq_refl eq_refl
           eq_refl).
Defined.
